(** * Content-delivery bot: navigation engine, statistics and admin registry

    A shallow embedding of the bot program with the persistent store and the
    webhook (the first program of [src/unnamed/part_000], lines 1-881): the
    statistics tracker, [showPage], the [/start] and [callback_query]
    handlers, and the admin routes over the page and file registries (pages,
    buttons, export, import, search).  Line numbers in the comments refer to
    that file.  The repository also keeps an older polling variant
    ([src/index.js]) without store, payload prefixes or request validation;
    of it only the file-button route is embedded (module [Legacy]).

    Conventions of the embedding.
    - The three module-level variables [botData], [filesData] and [stats]
      form the [State]; a handler is a computation in the monad [M], which
      threads the state, records the outbound calls (transport calls and
      [saveData()]) in order, and either returns or throws.  Console output
      is not recorded.
    - [new Date().toDateString()] is the parameter [today]; the clock in
      milliseconds is [now].
    - The chat transport is an oracle [accepts]: it tells whether the promise
      of an awaited call resolves.  Calls that are not awaited are only
      recorded: their result cannot influence the handler.
    - [Object.keys] is the parameter [object_keys]: a finite map does not
      record JavaScript's enumeration order.
    - The case mapping behind [toLowerCase] is the parameter [lowercase]:
      it belongs to the platform's Unicode tables, not to the program.
    - Request bodies and stored documents are typed: a page has optional
      [title], [message] and [buttons], where [title] and [message] are
      strings when present; a button grid is an array whose elements are
      rows, [null] or empty slots; indices are natural numbers; counters
      are natural numbers.  A body that carries another kind of value in
      one of these places is outside the embedding.
    - The built-ins that the two registries inherit are those of
      [Object.prototype] as the platform provides it, and they do not
      change: a request that writes to one (a button added under an
      inherited name, an update under [__proto__], which replaces the
      prototype of the registry) leaves the embedding. *)

From stdpp Require Import gmap strings list.

(** ** JavaScript values and built-ins used by the program *)

Module Js.

(** [!s] is true for the empty string only. *)
Definition truthy (s : string) : bool := negb (String.eqb s "").

(** An optional field: [undefined] is falsy. *)
Definition truthy_opt (o : option string) : bool :=
  match o with Some s => truthy s | None => false end.

(** [s.startsWith(p)] *)
Definition startsWith (s p : string) : bool := String.prefix p s.

(** [s.substring(n)] *)
Definition substring (n : nat) (s : string) : string :=
  String.substring n (String.length s - n) s.

(** [String(v)] for a value that is a string or [undefined]. *)
Definition String_ (v : option string) : string := default "undefined" v.

(** A template hole [${v}]. *)
Definition interpolate (v : option string) : string := default "undefined" v.

(** [s.toLowerCase()]: the empty string stays empty; the case mapping of
    any other text is the platform's, given as [lowercase]. *)
Definition toLowerCase (lowercase : string → string) (s : string) : string :=
  if truthy s then lowercase s else "".

(** [s.includes(q)] *)
Definition includes (s q : string) : bool :=
  match String.index 0 q s with Some _ => true | None => false end.

(** The property names every plain object answers to through
    [Object.prototype].  [botData] and [filesData] are object literals or
    results of [JSON.parse], so [o[k]] finds these even when [o] has no
    such own key. *)
Definition object_prototype_names : list string :=
  [ "constructor"; "toString"; "toLocaleString"; "valueOf";
    "hasOwnProperty"; "isPrototypeOf"; "propertyIsEnumerable";
    "__defineGetter__"; "__defineSetter__";
    "__lookupGetter__"; "__lookupSetter__"; "__proto__" ].

Definition is_prototype_name (k : string) : bool :=
  bool_decide (k ∈ object_prototype_names).

(** The result of the property read [o[k]]. *)
Inductive property (A : Type) : Type :=
| own (a : A)        (* an entry of the object itself *)
| inherited          (* a built-in found on the prototype chain: truthy *)
| undefined.
Arguments own {A} a.
Arguments inherited {A}.
Arguments undefined {A}.

(** [o[k]] *)
Definition get {A} (o : gmap string A) (k : string) : property A :=
  match o !! k with
  | Some a => own a
  | None => if is_prototype_name k then inherited else undefined
  end.

(** [!!o[k]] for an object whose own entries are objects. *)
Definition has {A} (o : gmap string A) (k : string) : bool :=
  match get o k with undefined => false | _ => true end.

(** [o[k] = v].  Assigning to [__proto__] when it is not an own key goes to
    the accessor of [Object.prototype]: no own entry is created.  The
    assignment replaces the prototype of [o], which the state does not
    hold: what the program does after it is outside the embedding. *)
Definition set {A} (o : gmap string A) (k : string) (v : A) : gmap string A :=
  if String.eqb k "__proto__" && bool_decide (o !! k = None)
  then o else <[k := v]> o.

(** [a[i] = x] on an array whose empty slots are [hole]: an index beyond
    the end extends the array, leaving empty slots in between. *)
Definition array_set {A} (hole : A) (a : list A) (i : nat) (x : A) : list A :=
  if decide (i < length a) then <[i := x]> a
  else a ++ replicate (i - length a) hole ++ [x].

(** [a.splice(i, 1)] *)
Definition splice1 {A} (a : list A) (i : nat) : list A := delete i a.

End Js.

(** ** Data model *)

Module Button.
(** [{ text, url }] or [{ text, callback_data }]. *)
Record t := mk {
  text : string;
  url : option string;
  callback_data : option string
}.
End Button.

Module Grid.
(** One element of the [buttons] array.  [hole] is an empty slot of a
    sparse array; [null] is what [JSON.stringify] writes for such a slot
    and [JSON.parse] reads back. *)
Inductive slot :=
| hole
| null
| row (r : list Button.t).

Abbreviation t := (list slot).

Definition is_row (s : slot) : bool :=
  match s with row _ => true | _ => false end.

(** Every element is an array of buttons. *)
Definition rows_only (g : t) : Prop := Forall (λ s, is_row s = true) g.

Definition no_holes (g : t) : Prop := Forall (λ s, s ≠ hole) g.

Definition json_slot (s : slot) : slot :=
  match s with hole => null | _ => s end.

(** [JSON.parse(JSON.stringify(g))] *)
Definition json (g : t) : t := json_slot <$> g.
End Grid.

Module Page.
(** A page object, as far as the program reads it.  A field that is [None]
    is absent ([undefined]); a [title] or [message] that is present is a
    string.  A request body or document that carries [null], a number or
    another value there is outside the embedding. *)
Record t := mk {
  title : option string;
  message : option string;
  buttons : option Grid.t
}.

(** The page fields of a built-in object: none. *)
Definition empty : t := mk None None None.

(** [{ ...old, ...patch }] on the three fields. *)
Definition merge (old patch : t) : t :=
  mk (match title patch with Some x => Some x | None => title old end)
     (match message patch with Some x => Some x | None => message old end)
     (match buttons patch with Some x => Some x | None => buttons old end).

Definition set_buttons (p : t) (g : Grid.t) : t :=
  mk (title p) (message p) (Some g).

(** What [botData[k]] offers as a page, when truthy. *)
Definition of_property (v : Js.property t) : option t :=
  match v with
  | Js.own p => Some p
  | Js.inherited => Some empty
  | Js.undefined => None
  end.

Definition json (p : t) : t :=
  mk (title p) (message p) (Grid.json <$> buttons p).

Definition rows_only (p : t) : Prop :=
  match buttons p with Some g => Grid.rows_only g | None => True end.

Definition no_holes (p : t) : Prop :=
  match buttons p with Some g => Grid.no_holes g | None => True end.
End Page.

Module File.
(** File metadata; [file_id] is the transport handle. *)
Record t := mk {
  id : string;
  name : string;
  type : string;
  size : nat;
  file_id : string;
  uploadDate : string
}.
End File.

Module Stats.
Record t := mk {
  users : gset Z;
  messages : nat;
  todayUsers : gset Z;
  todayMessages : nat;
  startDate : Z;
  dailyReset : string
}.
End Stats.

Record State := mkState {
  botData : gmap string Page.t;
  filesData : gmap string File.t;
  stats : Stats.t
}.

Definition with_botData (f : gmap string Page.t → gmap string Page.t) (σ : State) : State :=
  mkState (f (botData σ)) (filesData σ) (stats σ).

Definition with_stats (f : Stats.t → Stats.t) (σ : State) : State :=
  mkState (botData σ) (filesData σ) (f (stats σ)).

(** ** Outbound calls *)

Module Keyboard.
(** A button of the transport's inline keyboard. *)
Inductive button :=
| url_button (text url : string)
| callback_button (text callback_data : string).

(** [None] is an empty slot, which [Array.prototype.map] carries over. *)
Abbreviation t := (list (option (list button))).
End Keyboard.

Module Call.
Record options := mk_options {
  inline_keyboard : Keyboard.t;
  parse_mode : string
}.

(** The calls a handler makes on the bot object, and [saveData()]. *)
Inductive t :=
| sendMessage (chatId : Z) (text : string) (opts : option options)
| editMessageText (text : string) (chat_id : Z) (message_id : positive)
                  (opts : option options)
| sendPhoto (chatId : Z) (file_id : string)
| sendVideo (chatId : Z) (file_id : string)
| sendAudio (chatId : Z) (file_id : string)
| sendDocument (chatId : Z) (file_id : string)
| answerCallbackQuery (id : string)
| saveData.
End Call.

(** ** The handler monad *)

Inductive error := TypeError | Rejected.

Inductive outcome (A : Type) : Type :=
| returned (a : A)
| thrown (e : error).
Arguments returned {A} a.
Arguments thrown {A} e.

Definition M (A : Type) : Type := State → outcome A * State * list Call.t.

#[global] Instance M_ret : MRet M := λ A a σ, (returned a, σ, []).

#[global] Instance M_bind : MBind M := λ A B f m σ,
  match m σ with
  | (returned a, σ1, l1) =>
      match f a σ1 with (r, σ2, l2) => (r, σ2, l1 ++ l2) end
  | (thrown e, σ1, l1) => (thrown e, σ1, l1)
  end.

Definition throw {A} (e : error) : M A := λ σ, (thrown e, σ, []).

(** [try { m } catch (err) { h }] *)
Definition try_catch {A} (m : M A) (h : M A) : M A := λ σ,
  match m σ with
  | (returned a, σ1, l1) => (returned a, σ1, l1)
  | (thrown _, σ1, l1) =>
      match h σ1 with (r, σ2, l2) => (r, σ2, l1 ++ l2) end
  end.

Definition gets {A} (f : State → A) : M A := λ σ, (returned (f σ), σ, []).

Definition modify (f : State → State) : M unit := λ σ, (returned tt, f σ, []).

(** A call whose promise is not awaited. *)
Definition call (c : Call.t) : M unit := λ σ, (returned tt, σ, [c]).

Definition lift {A} (r : outcome A) : M A := λ σ, (r, σ, []).

(** The three components of a run. *)
Definition result {A} (x : outcome A * State * list Call.t) : outcome A := x.1.1.
Definition final {A} (x : outcome A * State * list Call.t) : State := x.1.2.
Definition calls {A} (x : outcome A * State * list Call.t) : list Call.t := x.2.

(** ** Notices *)

Definition PAGE_NOT_FOUND : string := "⚠️ هذه الصفحة غير موجودة.".
Definition WELCOME_NO_PAGES : string :=
  "🤖 مرحباً بك في البوت!" +:+ String (Ascii.ascii_of_nat 10) (String (Ascii.ascii_of_nat 10)
  ("لا توجد صفحات متاحة حالياً." +:+ String (Ascii.ascii_of_nat 10)
   "يمكن للمشرف إضافة صفحات من لوحة التحكم.")).
Definition FILE_SEND_ERROR : string := "⚠️ حدث خطأ أثناء إرسال هذا الملف.".
Definition FILE_UNAVAILABLE : string := "⚠️ هذا الملف غير متاح حالياً.".
Definition PAGE_UNAVAILABLE : string := "⚠️ هذه الصفحة غير متاحة حالياً.".
Definition UNKNOWN_BUTTON : string := "⚠️ هذا الزر غير متاح حالياً أو غير معروف.".

(** ** Requests and responses of the admin API *)

(** [res.json({ success: true, ... })] or [res.status(n).json({ error })]. *)
Inductive response := success | failure (status : nat).

(** The backup document of export and import. *)
Module Backup.
(** [stats.totalUsers] of a document: the array of chat ids that
    [GET /api/export] writes, or the number of users that the export of the
    older program writes ([src/index.js], line 431). *)
Inductive users := ids (l : list Z) | count (n : nat).

Record stats_doc := mk_stats {
  totalUsers : option users;
  totalMessages : option nat;
  startDate : option Z
}.

(** The backup document; a top-level key that is [None] is absent (or
    holds a falsy value). *)
Record t := mk {
  botData : option (gmap string Page.t);
  filesData : option (gmap string File.t);
  stats : option stats_doc;
  exportDate : option Z
}.

(** The document as [res.json] writes it and [JSON.parse] reads it. *)
Definition json (d : t) : t :=
  mk (fmap (M := gmap string) Page.json <$> botData d) (filesData d) (stats d) (exportDate d).
End Backup.

(** The multipart field [backupFile] of an import request. *)
Inductive upload :=
| no_file
| unparsable
| parsed (backupData : Backup.t).

(** The entries of a search result. *)
Module Hit.
Record page := mk_page { page_id : string; page_title : option string }.
Record file := mk_file { file_id : string; file_name : option string }.
End Hit.

(** ** Bot logic *)

Section Bot.

(** [new Date().toDateString()] *)
Variable today : string.

(** Whether the promise of an awaited transport call resolves. *)
Variable accepts : Call.t → bool.

(** [Object.keys(o)] *)
Variable object_keys : ∀ A : Type, gmap string A → list string.

(** [await c] *)
Definition await (c : Call.t) : M unit := λ σ,
  if accepts c then (returned tt, σ, [c]) else (thrown Rejected, σ, [c]).

(** [resetDailyStats()], lines 150-158. *)
Definition resetDailyStats : M unit :=
  s ← gets stats;
  if bool_decide (Stats.dailyReset s ≠ today) then
    modify (with_stats (λ s,
      Stats.mk (Stats.users s) (Stats.messages s) ∅ 0 (Stats.startDate s) today));;
    call Call.saveData
  else mret tt.

(** The callback of [row.map] in [showPage]. *)
Definition keyboard_button (button : Button.t) : Keyboard.button :=
  match Button.url button with
  | Some url =>
      if Js.truthy url then Keyboard.url_button (Button.text button) url
      else Keyboard.callback_button (Button.text button)
                                    (Js.String_ (Button.callback_data button))
  | None => Keyboard.callback_button (Button.text button)
                                     (Js.String_ (Button.callback_data button))
  end.

(** [page.buttons.map(row => row.map(...))]: empty slots are skipped and
    kept, [null.map] is a [TypeError]. *)
Fixpoint inline_keyboard (g : Grid.t) : outcome Keyboard.t :=
  match g with
  | [] => returned []
  | Grid.hole :: g' =>
      match inline_keyboard g' with
      | returned k => returned (None :: k)
      | thrown e => thrown e
      end
  | Grid.null :: _ => thrown TypeError
  | Grid.row r :: g' =>
      match inline_keyboard g' with
      | returned k => returned (Some (keyboard_button <$> r) :: k)
      | thrown e => thrown e
      end
  end.

Definition page_text (page : Page.t) : string :=
  Js.interpolate (Page.title page) +:+
  String (Ascii.ascii_of_nat 10) (String (Ascii.ascii_of_nat 10)
  (Js.interpolate (Page.message page))).

(** [showPage(chatId, pageKey, messageId = null)], lines 161-199. *)
Definition showPage (chatId : Z) (pageKey : string) (messageId : option positive) : M unit :=
  page ← gets (λ σ, Page.of_property (Js.get (botData σ) pageKey));
  match page with
  | None => call (Call.sendMessage chatId PAGE_NOT_FOUND None)
  | Some page =>
      inlineKeyboard ← lift (match Page.buttons page with
                             | Some g => inline_keyboard g
                             | None => returned []
                             end);
      let options := Call.mk_options inlineKeyboard "Markdown" in
      let message := page_text page in
      match messageId with
      | Some messageId =>
          call (Call.editMessageText message chatId messageId (Some options))
      | None => call (Call.sendMessage chatId message (Some options))
      end
  end.

(** [bot.onText(/\/start/, ...)], lines 202-223. *)
Definition onStart (chatId : Z) : M unit :=
  resetDailyStats;;
  modify (with_stats (λ s,
    Stats.mk ({[chatId]} ∪ Stats.users s) (Stats.messages s)
             (Stats.todayUsers s) (Stats.todayMessages s)
             (Stats.startDate s) (Stats.dailyReset s)));;
  modify (with_stats (λ s,
    Stats.mk (Stats.users s) (Stats.messages s)
             ({[chatId]} ∪ Stats.todayUsers s) (Stats.todayMessages s)
             (Stats.startDate s) (Stats.dailyReset s)));;
  modify (with_stats (λ s,
    Stats.mk (Stats.users s) (S (Stats.messages s))
             (Stats.todayUsers s) (Stats.todayMessages s)
             (Stats.startDate s) (Stats.dailyReset s)));;
  modify (with_stats (λ s,
    Stats.mk (Stats.users s) (Stats.messages s)
             (Stats.todayUsers s) (S (Stats.todayMessages s))
             (Stats.startDate s) (Stats.dailyReset s)));;
  call Call.saveData;;
  keys ← gets (λ σ, object_keys _ (botData σ));
  if bool_decide (length keys = 0) then
    call (Call.sendMessage chatId WELCOME_NO_PAGES None)
  else
    main ← gets (λ σ, Js.has (botData σ) "main_page");
    let initialPage := if (main : bool) then Some "main_page" else keys !! 0 in
    if Js.truthy_opt initialPage
    then showPage chatId (default "" initialPage) None
    else call (Call.sendMessage chatId WELCOME_NO_PAGES None).

(** The [query] object of a [callback_query] update: [id], the chat and
    message ids of [message], the field [data] in which the transport
    delivers the [callback_data] of the pressed button, and the field
    [callback_data], which the handler reads and which an update has only
    if whoever posted it put it there.  A message id is a positive
    integer. *)
Record CallbackQuery := mkQuery {
  query_id : string;
  chat_id : Z;
  message_id : positive;
  data : option string;
  callback_data : option string
}.

(** [bot.on('callback_query', async (query) => ...)], lines 226-289. *)
Definition onCallbackQuery (query : CallbackQuery) : M unit :=
  let chatId := chat_id query in
  let messageId := message_id query in
  let data := Js.String_ (callback_data query) in
  resetDailyStats;;
  modify (with_stats (λ s,
    Stats.mk (Stats.users s) (S (Stats.messages s))
             (Stats.todayUsers s) (Stats.todayMessages s)
             (Stats.startDate s) (Stats.dailyReset s)));;
  modify (with_stats (λ s,
    Stats.mk (Stats.users s) (Stats.messages s)
             (Stats.todayUsers s) (S (Stats.todayMessages s))
             (Stats.startDate s) (Stats.dailyReset s)));;
  call Call.saveData;;
  await (Call.answerCallbackQuery (query_id query));;
  if Js.startsWith data "file_" then
    let fileId := Js.substring 5 data in
    file ← gets (λ σ, Js.get (filesData σ) fileId);
    match file with
    | Js.own file =>
        if Js.truthy (File.file_id file) then
          try_catch
            (if Js.startsWith (File.type file) "image/" then
               await (Call.sendPhoto chatId (File.file_id file))
             else if Js.startsWith (File.type file) "video/" then
               await (Call.sendVideo chatId (File.file_id file))
             else if Js.startsWith (File.type file) "audio/" then
               await (Call.sendAudio chatId (File.file_id file))
             else
               await (Call.sendDocument chatId (File.file_id file)))
            (call (Call.sendMessage chatId FILE_SEND_ERROR None))
        else call (Call.sendMessage chatId FILE_UNAVAILABLE None)
    | _ => call (Call.sendMessage chatId FILE_UNAVAILABLE None)
    end
  else if Js.startsWith data "page_" then
    let pageKey := Js.substring 5 data in
    known ← gets (λ σ, Js.has (botData σ) pageKey);
    if (known : bool) then showPage chatId pageKey (Some messageId)
    else call (Call.editMessageText PAGE_UNAVAILABLE chatId messageId None)
  else if Js.startsWith data "text_" then
    let textContent := Js.substring 5 data in
    call (Call.sendMessage chatId textContent None)
  else
    call (Call.editMessageText UNKNOWN_BUTTON chatId messageId None).

(** ** Admin API *)

(** [POST /api/pages], lines 336-356. *)
Definition createPage (pageId : option string) (pageData : option Page.t) : M response :=
  match pageId, pageData with
  | Some pageId, Some pageData =>
      if negb (Js.truthy pageId) || negb (Js.truthy_opt (Page.title pageData))
         || negb (Js.truthy_opt (Page.message pageData))
      then mret (failure 400)
      else
        taken ← gets (λ σ, Js.has (botData σ) pageId);
        if (taken : bool) then mret (failure 400)
        else
          let newPage := Page.mk (Page.title pageData) (Page.message pageData)
                                 (Some (default [] (Page.buttons pageData))) in
          modify (with_botData (λ o, Js.set o pageId newPage));;
          call Call.saveData;;
          mret success
  | _, _ => mret (failure 400)
  end.

(** [PUT /api/pages/:pageId], lines 359-371. *)
Definition updatePage (pageId : string) (pageData : Page.t) : M response :=
  old ← gets (λ σ, Page.of_property (Js.get (botData σ) pageId));
  match old with
  | None => mret (failure 404)
  | Some old =>
      modify (with_botData (λ o, Js.set o pageId (Page.merge old pageData)));;
      call Call.saveData;;
      mret success
  end.

(** [DELETE /api/pages/:pageId], lines 374-384. *)
Definition deletePage (pageId : string) : M response :=
  known ← gets (λ σ, Js.has (botData σ) pageId);
  if (known : bool) then
    modify (with_botData (delete pageId));;
    call Call.saveData;;
    mret success
  else mret (failure 404).

(** [row.push(buttonData)] on the element at [targetRow]. *)
Definition push_button (buttonData : Button.t) (s : Grid.slot) : Grid.slot :=
  match s with
  | Grid.row r => Grid.row (r ++ [buttonData])
  | _ => s
  end.

(** The button grid after [POST /api/pages/:pageId/buttons] on a page of the
    registry (lines 413-425); [rowIndex] is the request's [rowIndex] after
    [parseInt], a non-negative integer ([None] when the request has none).
    A request whose [rowIndex] is read by [parseInt] as a negative number
    or as [NaN] stores the row under a property of the array that is not an
    index; such a request is outside the embedding. *)
Definition add_to_grid (buttons : option Grid.t) (buttonData : Button.t)
    (rowIndex : option nat) : Grid.t :=
  let buttons := default [] buttons in
  let targetRow := default (length buttons) rowIndex in
  let buttons :=
    match buttons !! targetRow with
    | Some (Grid.row _) => buttons
    | _ => Js.array_set Grid.hole buttons targetRow (Grid.row [])
    end in
  alter (push_button buttonData) targetRow buttons.

(** [POST /api/pages/:pageId/buttons], lines 399-428. *)
Definition addButton (pageId : string) (buttonData : option Button.t)
    (rowIndex : option nat) : M response :=
  page ← gets (λ σ, Js.get (botData σ) pageId);
  match page with
  | Js.undefined => mret (failure 404)
  | _ =>
      match buttonData with
      | None => mret (failure 400)
      | Some buttonData =>
          if negb (Js.truthy (Button.text buttonData)) then mret (failure 400)
          else
            match page with
            | Js.own p =>
                modify (with_botData
                  <[pageId := Page.set_buttons p
                     (add_to_grid (Page.buttons p) buttonData rowIndex)]>)
            | _ => mret tt  (* the row is stored on the built-in object *)
            end;;
            call Call.saveData;;
            mret success
      end
  end.

(** [DELETE /api/pages/:pageId/buttons], lines 431-454. *)
Definition deleteButton (pageId : string) (rowIndex buttonIndex : option nat) : M response :=
  page ← gets (λ σ, Page.of_property (Js.get (botData σ) pageId));
  match page with
  | None => mret (failure 404)
  | Some p =>
      match Page.buttons p, rowIndex with
      | Some buttons, Some rowIndex =>
          match buttons !! rowIndex with
          | Some (Grid.row r) =>
              match buttonIndex with
              | Some buttonIndex =>
                  match r !! buttonIndex with
                  | Some _ =>
                      let r := Js.splice1 r buttonIndex in
                      let buttons := <[rowIndex := Grid.row r]> buttons in
                      let buttons :=
                        if bool_decide (length r = 0)
                        then Js.splice1 buttons rowIndex else buttons in
                      modify (with_botData <[pageId := Page.set_buttons p buttons]>);;
                      call Call.saveData;;
                      mret success
                  | None => mret (failure 404)
                  end
              | None => mret (failure 404)
              end
          | _ => mret (failure 404)
          end
      | _, _ => mret (failure 404)
      end
  end.

(** *** Export and import *)

(** The clock, [new Date()], in milliseconds. *)
Variable now : Z.

(** [GET /api/export], lines 572-588: the body of the response.
    [Array.from(stats.users)] lists the set in some order. *)
Definition exportData : M Backup.t :=
  resetDailyStats;;
  σ ← gets (λ σ, σ);
  let exportData :=
    Backup.mk (Some (botData σ)) (Some (filesData σ))
      (Some (Backup.mk_stats (Some (Backup.ids (elements (Stats.users (stats σ)))))
                             (Some (Stats.messages (stats σ)))
                             (Some (Stats.startDate (stats σ)))))
      (Some now) in
  mret (Backup.json exportData).

(** [new Set(backupData.stats.totalUsers || [])], line 610: an array gives
    its elements, an absent field or the number 0 gives the empty set, and
    any other number cannot be iterated. *)
Definition imported_users (v : option Backup.users) : outcome (gset Z) :=
  match v with
  | Some (Backup.ids l) => returned (list_to_set l)
  | Some (Backup.count (S _)) => thrown TypeError
  | Some (Backup.count 0) | None => returned ∅
  end.

(** [POST /api/import], lines 591-626.  The body runs inside [try]: what it
    has assigned before a throw stays assigned, and the [catch] answers 500
    without a save. *)
Definition importData (file : upload) : M response :=
  match file with
  | no_file => mret (failure 400)
  | unparsable => mret (failure 500)
  | parsed backupData =>
      try_catch
        (match Backup.botData backupData with
         | Some b => modify (λ σ, mkState b (filesData σ) (stats σ))
         | None => mret tt
         end;;
         match Backup.filesData backupData with
         | Some f => modify (λ σ, mkState (botData σ) f (stats σ))
         | None => mret tt
         end;;
         match Backup.stats backupData with
         | Some s =>
             users ← lift (imported_users (Backup.totalUsers s));
             modify (with_stats (λ _,
               Stats.mk users
                        (default 0 (Backup.totalMessages s))
                        ∅ 0
                        (default now (Backup.startDate s))
                        today))
         | None => mret tt
         end;;
         call Call.saveData;;
         mret success)
        (mret (failure 500))
  end.

(** *** Search *)

(** The case mapping of the platform: [s.toLowerCase()] for a non-empty
    [s]. *)
Variable lowercase : string → string.

(** The predicate of the first [filter]; reading [title] or [message] of a
    page that lacks it is a [TypeError]. *)
Definition page_matches (o : gmap string Page.t) (query pageId : string) : outcome bool :=
  match Page.of_property (Js.get o pageId) with
  | None => thrown TypeError
  | Some page =>
      match Page.title page with
      | None => thrown TypeError
      | Some title =>
          if Js.includes (Js.toLowerCase lowercase title) query then returned true
          else match Page.message page with
               | None => thrown TypeError
               | Some message =>
                   returned (Js.includes (Js.toLowerCase lowercase message) query
                             || Js.includes (Js.toLowerCase lowercase pageId) query)
               end
      end
  end.

Definition file_matches (o : gmap string File.t) (query fileId : string) : outcome bool :=
  match Js.get o fileId with
  | Js.own file =>
      returned (Js.includes (Js.toLowerCase lowercase (File.name file)) query
                || Js.includes (Js.toLowerCase lowercase (File.type file)) query)
  | _ => thrown TypeError
  end.

(** [keys.filter(p)] for a predicate that may throw. *)
Fixpoint filter_keys (p : string → outcome bool) (keys : list string) : outcome (list string) :=
  match keys with
  | [] => returned []
  | k :: keys =>
      match p k with
      | thrown e => thrown e
      | returned b =>
          match filter_keys p keys with
          | thrown e => thrown e
          | returned ks => returned (if b then k :: ks else ks)
          end
      end
  end.

(** [keys.map(f)] for a callback that may throw. *)
Fixpoint map_keys {B} (f : string → outcome B) (keys : list string) : outcome (list B) :=
  match keys with
  | [] => returned []
  | k :: keys =>
      match f k with
      | thrown e => thrown e
      | returned b =>
          match map_keys f keys with
          | thrown e => thrown e
          | returned bs => returned (b :: bs)
          end
      end
  end.

Definition page_hit (o : gmap string Page.t) (pageId : string) : outcome Hit.page :=
  match Page.of_property (Js.get o pageId) with
  | Some page => returned (Hit.mk_page pageId (Page.title page))
  | None => thrown TypeError
  end.

Definition file_hit (o : gmap string File.t) (fileId : string) : outcome Hit.file :=
  match Js.get o fileId with
  | Js.own file => returned (Hit.mk_file fileId (Some (File.name file)))
  | Js.inherited => returned (Hit.mk_file fileId None)
  | Js.undefined => thrown TypeError
  end.

(** [GET /api/search], lines 656-690; [q] is [req.query.q]. *)
Definition search (q : option string) : M (list Hit.page * list Hit.file) :=
  let query := match q with Some q => Js.toLowerCase lowercase q | None => "" end in
  if negb (Js.truthy query) then mret ([], [])
  else
    pages ← gets botData;
    matchingPages ← lift (filter_keys (page_matches pages query) (object_keys _ pages));
    matchingPages ← lift (map_keys (page_hit pages) matchingPages);
    files ← gets filesData;
    matchingFiles ← lift (filter_keys (file_matches files query) (object_keys _ files));
    matchingFiles ← lift (map_keys (file_hit files) matchingFiles);
    mret (matchingPages, matchingFiles).

End Bot.

(** ** Replaying page operations *)

(** A create, update or delete request on the page registry. *)
Inductive operation :=
| Create (pageId : string) (pageData : Page.t)
| Update (pageId : string) (pageData : Page.t)
| Delete (pageId : string).

Definition request (o : operation) : M response :=
  match o with
  | Create pageId pageData => createPage (Some pageId) (Some pageData)
  | Update pageId pageData => updatePage pageId pageData
  | Delete pageId => deletePage pageId
  end.

Fixpoint replay (ops : list operation) : M (list response) :=
  match ops with
  | [] => mret []
  | o :: ops => r ← request o; rs ← replay ops; mret (r :: rs)
  end.

(** The reference map of the specification, in its words: "create fails if
    key already exists; read/update/delete fail with a not-found signal if
    key absent". *)
Module Reference.
Inductive signal := done | already_exists | not_found.

Definition create (k : string) (v : Page.t) (m : gmap string Page.t) :
    gmap string Page.t * signal :=
  match m !! k with
  | Some _ => (m, already_exists)
  | None => (<[k := v]> m, done)
  end.

Definition update (k : string) (v : Page.t) (m : gmap string Page.t) :
    gmap string Page.t * signal :=
  match m !! k with
  | Some _ => (<[k := v]> m, done)
  | None => (m, not_found)
  end.

Definition remove (k : string) (m : gmap string Page.t) :
    gmap string Page.t * signal :=
  match m !! k with
  | Some _ => (delete k m, done)
  | None => (m, not_found)
  end.

Definition apply (o : operation) (m : gmap string Page.t) :
    gmap string Page.t * signal :=
  match o with
  | Create k v => create k v m
  | Update k v => update k v m
  | Delete k => remove k m
  end.

Fixpoint replay (ops : list operation) (m : gmap string Page.t) :
    gmap string Page.t * list signal :=
  match ops with
  | [] => (m, [])
  | o :: ops =>
      let '(m1, s) := apply o m in
      let '(m2, ss) := replay ops m1 in
      (m2, s :: ss)
  end.

(** The HTTP answer that carries a signal. *)
Definition response_of (s : signal) : response :=
  match s with
  | done => success
  | already_exists => failure 400
  | not_found => failure 404
  end.
End Reference.

(** The requests on which the routes and the reference map are compared: a
    create carries a non-empty id, title and message, and no key is a name
    that objects inherit. *)
Definition admissible (o : operation) : Prop :=
  match o with
  | Create k p =>
      Js.truthy k = true ∧ Js.truthy_opt (Page.title p) = true ∧
      Js.truthy_opt (Page.message p) = true ∧ Js.is_prototype_name k = false
  | Update k _ => Js.is_prototype_name k = false
  | Delete k => Js.is_prototype_name k = false
  end.

(** ** Sample data *)

Module Sample.
Definition go : Button.t := Button.mk "Go" None (Some "page_main_page").
Definition back : Button.t := Button.mk "Back" None (Some "page_promo").
Definition site : Button.t := Button.mk "Site" (Some "https://example.org") None.

Definition promo : Page.t := Page.mk (Some "Promo") (Some "Hi") (Some []).
Definition main_page : Page.t :=
  Page.mk (Some "Main") (Some "Welcome") (Some [Grid.row [site; back]; Grid.row [go]]).

Definition photo : File.t :=
  File.mk "1700000000000" "cat.png" "image/png" 2048 "AgACAgQAAx0" "2024-01-01T00:00:00.000Z".

Definition fresh_stats : Stats.t := Stats.mk ∅ 0 ∅ 0 0 "Mon Jan 01 2024".

Definition yesterday_stats : Stats.t :=
  Stats.mk {[ 7%Z ]} 12 {[ 7%Z ]} 5 0 "Mon Jan 01 2024".

Definition empty_state : State := mkState ∅ ∅ fresh_stats.

Definition single : Page.t :=
  Page.mk (Some "One") (Some "Only") (Some [Grid.row [go]]).

Definition state : State :=
  mkState (<["main_page" := main_page]>
             (<["promo" := promo]> (<["single" := single]> ∅)))
          (<["1700000000000" := photo]> ∅)
          yesterday_stats.

Definition accept_all : Call.t → bool := λ _, true.

Definition keys : ∀ A : Type, gmap string A → list string :=
  λ A m, (map_to_list m).*1.

(** An update posted with the field the handler reads. *)
Definition press (data : string) : CallbackQuery :=
  mkQuery "cbq-1" 42 7 None (Some data).

(** The update the transport delivers for a press on a button whose
    [callback_data] is [data]. *)
Definition delivered_press (data : string) : CallbackQuery :=
  mkQuery "cbq-1" 42 7 (Some data) None.

Definition lower_ascii (c : Ascii.ascii) : Ascii.ascii :=
  let n := Ascii.nat_of_ascii c in
  if (65 <=? n)%nat && (n <=? 90)%nat then Ascii.ascii_of_nat (n + 32) else c.

(** The case mapping on text whose only cased letters are ASCII. *)
Fixpoint lowercase (s : string) : string :=
  match s with
  | EmptyString => EmptyString
  | String c r => String (lower_ascii c) (lowercase r)
  end.
End Sample.

(** * The rest of the program *)

(** ** Persistent store *)

(** The outcome of [fs.readFile] followed by [JSON.parse] on one of the data
    files: the file does not exist ([err.code === 'ENOENT']), or reading or
    parsing fails otherwise, or the document is there. *)
Inductive file_read (A : Type) : Type :=
| ENOENT
| unreadable
| contents (a : A).
Arguments ENOENT {A}.
Arguments unreadable {A}.
Arguments contents {A} a.

Module StatsDoc.
(** [stats_data.json]; a field that is [None] is absent. *)
Record t := mk {
  users : option (list Z);
  messages : option nat;
  todayUsers : option (list Z);
  todayMessages : option nat;
  startDate : option Z;
  dailyReset : option string
}.
End StatsDoc.

(** The three data files. *)
Record Disk := mkDisk {
  DATA_FILE : file_read (gmap string Page.t);
  FILES_FILE : file_read (gmap string File.t);
  STATS_FILE : file_read StatsDoc.t
}.

(** [statsToSave] in [saveData], lines 131-138. *)
Definition statsToSave (s : Stats.t) : StatsDoc.t :=
  StatsDoc.mk (Some (elements (Stats.users s))) (Some (Stats.messages s))
              (Some (elements (Stats.todayUsers s))) (Some (Stats.todayMessages s))
              (Some (Stats.startDate s)) (Some (Stats.dailyReset s)).

(** What [saveData()], lines 128-145, leaves in the three files when its
    writes succeed and no handler changes the state while they are pending
    (the second document is serialised once the first write is done). *)
Definition saved (σ : State) : Disk :=
  mkDisk (contents (Page.json <$> botData σ))
         (contents (filesData σ))
         (contents (statsToSave (stats σ))).

(** ** Answers that carry data *)

(** [res.json(a)] or [res.status(n).json({ error })]. *)
Inductive reply (A : Type) : Type :=
| sent (a : A)
| refused (status : nat).
Arguments sent {A} a.
Arguments refused {A} status.

Module Preview.
(** The five fields of a file entry that [GET /api/files/:fileId/preview]
    shows. *)
Record t := mk {
  name : string;
  type : string;
  size : nat;
  file_id : string;
  uploadDate : string
}.

(** The body of the answer: the five fields of an entry, or, for a key
    that resolves to a built-in, the [name] of the built-in alone, when it
    has one. *)
Inductive body := entry (p : t) | built_in (name : option string).
End Preview.

(** The [name] property of the built-in that a key inherits from
    [Object.prototype]: a method is a function named after its key,
    [constructor] is the function [Object], and [__proto__] is the
    prototype object itself, which has no [name]. *)
Definition builtin_name (k : string) : option string :=
  if String.eqb k "__proto__" then None
  else if String.eqb k "constructor" then Some "Object"
  else Some k.

Module Report.
(** The body of [GET /api/stats]. *)
Record stats := mk_stats {
  users : nat;
  messages : nat;
  pages : nat;
  files : nat;
  todayUsers : nat;
  todayMessages : nat;
  topPage : option string;
  uptime : Z
}.

(** [overview.uptime] of [GET /api/detailed-stats]. *)
Record uptime_units := mk_uptime {
  milliseconds : Z;
  seconds : Z;
  minutes : Z;
  hours : Z;
  days : Z
}.

Record page_line := mk_page_line {
  page_id : string;
  page_title : option string;
  buttonsCount : nat
}.

Record file_line := mk_file_line {
  file_id : string;
  file_name : option string;
  file_type : option string;
  file_size : option nat
}.

(** The body of [GET /api/detailed-stats]. *)
Record detailed := mk_detailed {
  totalUsers : nat;
  totalMessages : nat;
  totalPages : nat;
  totalFiles : nat;
  uptime_of : uptime_units;
  today_users : nat;
  today_messages : nat;
  page_lines : list page_line;
  file_lines : list file_line
}.
End Report.

Module Upload.
(** [req.file] as multer gives it; the buffer is left out. *)
Record file := mk_file {
  originalname : string;
  mimetype : string;
  size : nat
}.

(** The method the upload is sent with. *)
Inductive method := photo | video | audio | document.

(** The fields of the transport's answer that the route reads: the
    [file_id]s of the photo sizes, and the [file_id] of the video, audio or
    document object, each when the answer has it. *)
Record message := mk_message {
  photo_sizes : option (list string);
  video_id : option string;
  audio_id : option string;
  document_id : option string
}.
End Upload.

(** [Math.floor(a / b)] on integer milliseconds. *)
Definition floor_div (a b : Z) : Z := (a / b)%Z.

(** [grid.flat().length]: an empty slot is skipped, [null] stays an
    element, a row gives its buttons. *)
Definition flat_slot (s : Grid.slot) : nat :=
  match s with
  | Grid.hole => 0
  | Grid.null => 1
  | Grid.row r => length r
  end.

Definition flat_length (g : Grid.t) : nat := sum_list (flat_slot <$> g).

Section Store.

(** [new Date().toDateString()] *)
Variable today : string.

(** The clock, [new Date()], in milliseconds. *)
Variable now : Z.

(** [Object.keys(o)] *)
Variable object_keys : ∀ A : Type, gmap string A → list string.

(** The stats object built from a parsed [stats_data.json], lines 103-108. *)
Definition loaded_stats (d : StatsDoc.t) : Stats.t :=
  Stats.mk (list_to_set (default [] (StatsDoc.users d)))
           (default 0 (StatsDoc.messages d))
           (list_to_set (default [] (StatsDoc.todayUsers d)))
           (default 0 (StatsDoc.todayMessages d))
           (default now (StatsDoc.startDate d))
           (match StatsDoc.dailyReset d with
            | Some day => if Js.truthy day then day else today
            | None => today
            end).

(** [loadData()], lines 74-125. *)
Definition loadData (disk : Disk) : M unit :=
  match DATA_FILE disk with
  | contents data => modify (λ σ, mkState data (filesData σ) (stats σ))
  | ENOENT => modify (λ σ, mkState ∅ (filesData σ) (stats σ))
  | unreadable => mret tt
  end;;
  match FILES_FILE disk with
  | contents data => modify (λ σ, mkState (botData σ) data (stats σ))
  | ENOENT => modify (λ σ, mkState (botData σ) ∅ (stats σ))
  | unreadable => mret tt
  end;;
  match STATS_FILE disk with
  | contents loadedStats =>
      modify (with_stats (λ _, loaded_stats loadedStats));;
      resetDailyStats today
  | ENOENT => modify (with_stats (λ _, Stats.mk ∅ 0 ∅ 0 now today))
  | unreadable => mret tt
  end.

(** [GET /api/stats], lines 299-316. *)
Definition getStats : M Report.stats :=
  resetDailyStats today;;
  σ ← gets (λ σ, σ);
  let uptimeMs := (now - Stats.startDate (stats σ))%Z in
  let uptimeMinutes := floor_div uptimeMs (1000 * 60) in
  mret (Report.mk_stats
          (size (Stats.users (stats σ)))
          (Stats.messages (stats σ))
          (length (object_keys _ (botData σ)))
          (length (object_keys _ (filesData σ)))
          (size (Stats.todayUsers (stats σ)))
          (Stats.todayMessages (stats σ))
          (match object_keys _ (botData σ) !! 0 with
           | Some k => if Js.truthy k then Some k else None
           | None => None
           end)
          uptimeMinutes).

(** [GET /api/pages], lines 319-321. *)
Definition getPages : M (gmap string Page.t) :=
  σ ← gets (λ σ, σ); mret (Page.json <$> botData σ).

(** [GET /api/pages/:pageId], lines 324-333: the page as [res.json] writes
    it, or the built-in that the key inherits. *)
Definition getPage (pageId : string) : M (reply (Js.property Page.t)) :=
  page ← gets (λ σ, Js.get (botData σ) pageId);
  match page with
  | Js.undefined => mret (refused 404)
  | Js.own p => mret (sent (Js.own (Page.json p)))
  | Js.inherited => mret (sent Js.inherited)
  end.

(** [GET /api/pages/:pageId/buttons], lines 387-396. *)
Definition getButtons (pageId : string) : M (reply Grid.t) :=
  page ← gets (λ σ, Page.of_property (Js.get (botData σ) pageId));
  match page with
  | None => mret (refused 404)
  | Some page => mret (sent (Grid.json (default [] (Page.buttons page))))
  end.

(** [GET /api/files], lines 458-460. *)
Definition getFiles : M (gmap string File.t) :=
  σ ← gets (λ σ, σ); mret (filesData σ).

(** [DELETE /api/files/:fileId], lines 541-551. *)
Definition deleteFile (fileId : string) : M response :=
  known ← gets (λ σ, Js.has (filesData σ) fileId);
  if (known : bool) then
    modify (λ σ, mkState (botData σ) (delete fileId (filesData σ)) (stats σ));;
    call Call.saveData;;
    mret success
  else mret (failure 404).

(** [GET /api/files/:fileId/preview], lines 554-569; of the five fields a
    built-in has at most [name]. *)
Definition previewFile (fileId : string) : M (reply Preview.body) :=
  file ← gets (λ σ, Js.get (filesData σ) fileId);
  match file with
  | Js.undefined => mret (refused 404)
  | Js.own file =>
      mret (sent (Preview.entry
                    (Preview.mk (File.name file) (File.type file)
                       (File.size file) (File.file_id file)
                       (File.uploadDate file))))
  | Js.inherited => mret (sent (Preview.built_in (builtin_name fileId)))
  end.

(** [POST /api/clear-all], lines 638-653. *)
Definition clearAll : M response :=
  modify (λ σ, mkState ∅ (filesData σ) (stats σ));;
  modify (λ σ, mkState (botData σ) ∅ (stats σ));;
  modify (with_stats (λ _, Stats.mk ∅ 0 ∅ 0 now today));;
  call Call.saveData;;
  mret success.

(** One entry of [pages] in the detailed report, lines 747-751. *)
Definition page_line (o : gmap string Page.t) (pageId : string) : outcome Report.page_line :=
  match Page.of_property (Js.get o pageId) with
  | Some page =>
      returned (Report.mk_page_line pageId (Page.title page)
                  (flat_length (default [] (Page.buttons page))))
  | None => thrown TypeError
  end.

(** One entry of [files] in the detailed report, lines 752-757. *)
Definition file_line (o : gmap string File.t) (fileId : string) : outcome Report.file_line :=
  match Js.get o fileId with
  | Js.own file =>
      returned (Report.mk_file_line fileId (Some (File.name file))
                  (Some (File.type file)) (Some (File.size file)))
  | Js.inherited =>
      returned (Report.mk_file_line fileId (builtin_name fileId) None None)
  | Js.undefined => thrown TypeError
  end.

(** [GET /api/detailed-stats], lines 723-759. *)
Definition detailedStats : M Report.detailed :=
  resetDailyStats today;;
  σ ← gets (λ σ, σ);
  let uptimeMs := (now - Stats.startDate (stats σ))%Z in
  pages ← lift (map_keys (page_line (botData σ)) (object_keys _ (botData σ)));
  files ← lift (map_keys (file_line (filesData σ)) (object_keys _ (filesData σ)));
  mret (Report.mk_detailed
          (size (Stats.users (stats σ)))
          (Stats.messages (stats σ))
          (length (object_keys _ (botData σ)))
          (length (object_keys _ (filesData σ)))
          (Report.mk_uptime uptimeMs
             (floor_div uptimeMs 1000)
             (floor_div uptimeMs (1000 * 60))
             (floor_div uptimeMs (1000 * 60 * 60))
             (floor_div uptimeMs (1000 * 60 * 60 * 24)))
          (size (Stats.todayUsers (stats σ)))
          (Stats.todayMessages (stats σ))
          pages files).

(** *** Upload *)

(** The transport's answer to the upload sent to the admin chat with the
    given method: [None] when the promise is rejected. *)
Variable send_upload : Upload.method → string → Upload.file → option Upload.message.

(** [Date.now().toString()] *)
Variable timestamp : string.

(** [new Date().toISOString()] *)
Variable isoDate : string.

(** The method chosen from the MIME type, lines 487-495. *)
Definition upload_method (mimetype : string) : Upload.method :=
  if Js.startsWith mimetype "image/" then Upload.photo
  else if Js.startsWith mimetype "video/" then Upload.video
  else if Js.startsWith mimetype "audio/" then Upload.audio
  else Upload.document.

(** The [file_id] taken from the answer, lines 498-508: the last photo size
    first, then the video, the audio, the document; reading the last element
    of an empty [photo] array throws. *)
Definition sent_file_id (m : Upload.message) : outcome (option string) :=
  match Upload.photo_sizes m with
  | Some sizes =>
      match last sizes with
      | Some id => returned (Some id)
      | None => thrown TypeError
      end
  | None =>
      match Upload.video_id m with
      | Some id => returned (Some id)
      | None =>
          match Upload.audio_id m with
          | Some id => returned (Some id)
          | None => returned (Upload.document_id m)
          end
      end
  end.

(** [POST /api/upload], lines 467-538; [ADMIN_CHAT_ID] is the environment
    variable.  The send to the admin chat is present through its answer
    [send_upload]. *)
Definition uploadFile (file : option Upload.file) (ADMIN_CHAT_ID : option string) :
    M (reply File.t) :=
  match file with
  | None => mret (refused 400)
  | Some file =>
      if negb (Js.truthy_opt ADMIN_CHAT_ID)
         || String.eqb (default "" ADMIN_CHAT_ID) "YOUR_ADMIN_CHAT_ID"
      then mret (refused 400)
      else
        let adminChatId := default "" ADMIN_CHAT_ID in
        match send_upload (upload_method (Upload.mimetype file)) adminChatId file with
        | None => mret (refused 500)
        | Some sentMessage =>
            match sent_file_id sentMessage with
            | returned (Some fileId) =>
                if Js.truthy fileId then
                  let fileData :=
                    File.mk timestamp (Upload.originalname file)
                            (Upload.mimetype file) (Upload.size file)
                            fileId isoDate in
                  modify (λ σ, mkState (botData σ)
                                 (Js.set (filesData σ) (File.id fileData) fileData)
                                 (stats σ));;
                  call Call.saveData;;
                  mret (sent fileData)
                else mret (refused 500)
            | _ => mret (refused 500)
            end
        end
  end.

End Store.

(** ** The older program: a button for a file *)

Module Legacy.
(** [POST /api/buttons/file] of [src/index.js], lines 399-423; that program
    keeps no store, so no save is asked for. *)
Definition addFileButton (pageId : string) (buttonText : string) (fileId : string) : M response :=
  page ← gets (λ σ, Js.get (botData σ) pageId);
  match page with
  | Js.undefined => mret (failure 404)
  | _ =>
      known ← gets (λ σ, Js.has (filesData σ) fileId);
      if (known : bool) then
        let buttonData := Button.mk buttonText None (Some fileId) in
        match page with
        | Js.own p =>
            modify (with_botData
              <[pageId := Page.set_buttons p
                 (default [] (Page.buttons p) ++ [Grid.row [buttonData]])]>)
        | _ => mret tt  (* the row is stored on the built-in object *)
        end;;
        mret success
      else mret (failure 404)
  end.
End Legacy.

(** ** Events *)

(** What reaches the program after start-up: the two bot events and the
    admin requests, each with the clock and the transport it runs against. *)
Inductive event :=
| ev_start (today : string) (keys : ∀ A : Type, gmap string A → list string) (chatId : Z)
| ev_press (today : string) (accepts : Call.t → bool) (query : CallbackQuery)
| ev_stats (today : string) (now : Z) (keys : ∀ A : Type, gmap string A → list string)
| ev_detailed (today : string) (now : Z) (keys : ∀ A : Type, gmap string A → list string)
| ev_create (pageId : option string) (pageData : option Page.t)
| ev_update (pageId : string) (pageData : Page.t)
| ev_delete (pageId : string)
| ev_add_button (pageId : string) (buttonData : option Button.t) (rowIndex : option nat)
| ev_delete_button (pageId : string) (rowIndex buttonIndex : option nat)
| ev_upload (send : Upload.method → string → Upload.file → option Upload.message)
            (timestamp isoDate : string) (file : option Upload.file)
            (ADMIN_CHAT_ID : option string)
| ev_delete_file (fileId : string)
| ev_export (today : string) (now : Z)
| ev_import (today : string) (now : Z) (file : upload)
| ev_clear_all (today : string) (now : Z)
| ev_search (keys : ∀ A : Type, gmap string A → list string)
            (lowercase : string → string) (q : option string).

(** The state after the handler of an event. *)
Definition after (e : event) (σ : State) : State :=
  match e with
  | ev_start today keys chatId => final (onStart today keys chatId σ)
  | ev_press today accepts query => final (onCallbackQuery today accepts query σ)
  | ev_stats today now keys => final (getStats today now keys σ)
  | ev_detailed today now keys => final (detailedStats today now keys σ)
  | ev_create pageId pageData => final (createPage pageId pageData σ)
  | ev_update pageId pageData => final (updatePage pageId pageData σ)
  | ev_delete pageId => final (deletePage pageId σ)
  | ev_add_button pageId buttonData rowIndex =>
      final (addButton pageId buttonData rowIndex σ)
  | ev_delete_button pageId rowIndex buttonIndex =>
      final (deleteButton pageId rowIndex buttonIndex σ)
  | ev_upload send timestamp isoDate file admin =>
      final (uploadFile send timestamp isoDate file admin σ)
  | ev_delete_file fileId => final (deleteFile fileId σ)
  | ev_export today now => final (exportData today now σ)
  | ev_import today now file => final (importData today now file σ)
  | ev_clear_all today now => final (clearAll today now σ)
  | ev_search keys lowercase q => final (search keys lowercase q σ)
  end.

(** The state after a sequence of events. *)
Definition after_all (es : list event) (σ : State) : State :=
  foldl (λ σ e, after e σ) σ es.

(** ** Predicates on the state *)

(** The today figures do not exceed the all-time figures. *)
Definition today_within_total (s : Stats.t) : Prop :=
  Stats.todayUsers s ⊆ Stats.users s ∧ Stats.todayMessages s ≤ Stats.messages s.

(** A grid of rows none of which is empty. *)
Definition tidy (g : Grid.t) : Prop :=
  Forall (λ s, ∃ r, s = Grid.row r ∧ r ≠ []) g.


(** Every event but an import: an import stores the figures of the
    document, the others count. *)
Definition counts (e : event) : Prop :=
  match e with
  | ev_import _ _ _ => False
  | _ => True
  end.

(** Every page of [o'] is a page of [o] under the same key, with the title
    and the message it has there. *)
Definition keeps_texts (o o' : gmap string Page.t) : Prop :=
  ∀ k p', o' !! k = Some p' →
    ∃ p, o !! k = Some p ∧ Page.title p' = Page.title p ∧
         Page.message p' = Page.message p.

(** Every event but those that carry page texts: a create, an update and
    an import. *)
Definition carries_no_text (e : event) : Prop :=
  match e with
  | ev_create _ _ | ev_update _ _ | ev_import _ _ _ => False
  | _ => True
  end.


(** The text of a keyboard button. *)
Definition keyboard_text (b : Keyboard.button) : string :=
  match b with
  | Keyboard.url_button text _ => text
  | Keyboard.callback_button text _ => text
  end.

(** ** More sample data *)

Module Fixture.
Definition clip : Upload.file := Upload.mk_file "clip.mp4" "video/mp4" 4096.

Definition video_answer : Upload.message :=
  Upload.mk_message None (Some "BAACAgQAAx0") None None.

Definition transport : Upload.method → string → Upload.file → option Upload.message :=
  λ _ _ _, Some video_answer.

Definition down : Upload.method → string → Upload.file → option Upload.message :=
  λ _ _ _, None.

Definition news : Page.t := Page.mk (Some "News") (Some "Soon") None.

Definition refuse_all : Call.t → bool := λ _, false.
End Fixture.

(** * Properties *)

(** ** Running a handler *)

Ltac run :=
  unfold mbind, mret, M_bind, M_ret, gets, modify, call, lift, throw; simpl.

Lemma resetDailyStats_run today σ :
  resetDailyStats today σ =
    if bool_decide (Stats.dailyReset (stats σ) ≠ today)
    then (returned tt,
          with_stats (λ s, Stats.mk (Stats.users s) (Stats.messages s) ∅ 0
                                    (Stats.startDate s) today) σ,
          [Call.saveData])
    else (returned tt, σ, []).
Proof. unfold resetDailyStats. run. case_bool_decide; reflexivity. Qed.

(** [showPage] reads the registry and leaves the state alone. *)
Lemma showPage_final chatId pageKey messageId σ :
  final (showPage chatId pageKey messageId σ) = σ.
Proof.
  unfold showPage. run.
  destruct (Page.of_property _) as [page|]; [|reflexivity].
  destruct (match Page.buttons page with
            | Some g => inline_keyboard g
            | None => returned []
            end); [destruct messageId|]; reflexivity.
Qed.

(** One case split on the next test a handler makes. *)
Ltac step :=
  match goal with
  | |- context [showPage ?a ?b ?c ?s] =>
      let H := fresh in
      pose proof (showPage_final a b c s) as H;
      destruct (showPage a b c s) as [[? ?] ?];
      unfold final in H; simpl in H; subst
  | |- context [Js.startsWith ?a ?b] => destruct (Js.startsWith a b) eqn:?
  | |- context [Js.get ?a ?b] => destruct (Js.get a b) eqn:?
  | |- context [Js.has ?a ?b] => destruct (Js.has a b) eqn:?
  | |- context [Js.truthy ?a] => destruct (Js.truthy a) eqn:?
  | |- context [Js.truthy_opt ?a] => destruct (Js.truthy_opt a) eqn:?
  | |- context [bool_decide ?P] => destruct (bool_decide P) eqn:?
  | |- context [if ?b then _ else _] => destruct b eqn:?
  end; simpl.

(** ** Statistics *)

(** What [/start] does to the statistics, after the daily roll. *)
Lemma onStart_stats today keys chatId σ :
  stats (final (onStart today keys chatId σ)) =
    let s := stats (final (resetDailyStats today σ)) in
    Stats.mk ({[chatId]} ∪ Stats.users s) (S (Stats.messages s))
             ({[chatId]} ∪ Stats.todayUsers s) (S (Stats.todayMessages s))
             (Stats.startDate s) (Stats.dailyReset s).
Proof.
  unfold onStart. unfold mbind at 1. unfold M_bind at 1.
  rewrite resetDailyStats_run.
  case_bool_decide; run; repeat step; reflexivity.
Qed.

(** What a button press does to the statistics, after the daily roll: the
    two user sets are not touched. *)
Lemma onCallbackQuery_stats today accepts query σ :
  stats (final (onCallbackQuery today accepts query σ)) =
    let s := stats (final (resetDailyStats today σ)) in
    Stats.mk (Stats.users s) (S (Stats.messages s))
             (Stats.todayUsers s) (S (Stats.todayMessages s))
             (Stats.startDate s) (Stats.dailyReset s).
Proof.
  unfold onCallbackQuery. unfold mbind at 1. unfold M_bind at 1.
  rewrite resetDailyStats_run.
  case_bool_decide; run; unfold await, try_catch; repeat step; reflexivity.
Qed.

(** Both handlers ask for a save after recording. *)
Lemma onStart_saves today keys chatId σ :
  ∃ l, calls (onStart today keys chatId σ) =
       calls (resetDailyStats today σ) ++ Call.saveData :: l.
Proof.
  unfold onStart. unfold mbind at 1. unfold M_bind at 1.
  rewrite resetDailyStats_run.
  case_bool_decide; run; repeat step; unfold calls; simpl; eauto.
Qed.

Lemma onCallbackQuery_saves today accepts query σ :
  ∃ l, calls (onCallbackQuery today accepts query σ) =
       calls (resetDailyStats today σ) ++ Call.saveData :: l.
Proof.
  unfold onCallbackQuery. unfold mbind at 1. unfold M_bind at 1.
  rewrite resetDailyStats_run.
  case_bool_decide; run; unfold await, try_catch; repeat step;
    unfold calls; simpl; eauto.
Qed.

(** C4. When [dailyReset] is another day than today, the first interaction
    of the day (a [/start] or a button press) first empties the today set,
    zeroes the today counter and stamps today, and only then records
    itself: afterwards [todayMessages] is exactly 1.  When [dailyReset] is
    today, nothing is reset: the today counter grows by one and the today
    set keeps its members. *)
Theorem daily_reset_precedes_recording today accepts keys chatId query σ :
  (Stats.dailyReset (stats σ) ≠ today →
     let s1 := stats (final (onStart today keys chatId σ)) in
     let s2 := stats (final (onCallbackQuery today accepts query σ)) in
     Stats.todayMessages s1 = 1 ∧ Stats.todayUsers s1 = {[chatId]} ∧
     Stats.dailyReset s1 = today ∧
     Stats.todayMessages s2 = 1 ∧ Stats.todayUsers s2 = ∅ ∧
     Stats.dailyReset s2 = today) ∧
  (Stats.dailyReset (stats σ) = today →
     let s1 := stats (final (onStart today keys chatId σ)) in
     let s2 := stats (final (onCallbackQuery today accepts query σ)) in
     Stats.todayMessages s1 = S (Stats.todayMessages (stats σ)) ∧
     Stats.todayUsers s1 = {[chatId]} ∪ Stats.todayUsers (stats σ) ∧
     Stats.dailyReset s1 = today ∧
     Stats.todayMessages s2 = S (Stats.todayMessages (stats σ)) ∧
     Stats.todayUsers s2 = Stats.todayUsers (stats σ) ∧
     Stats.dailyReset s2 = today).
Proof.
  split; intros Hday; cbv zeta;
    rewrite onStart_stats, onCallbackQuery_stats, resetDailyStats_run.
  - rewrite bool_decide_true by exact Hday. simpl.
    repeat split. apply (right_id_L ∅ (∪)).
  - rewrite bool_decide_false by (intros Hne; exact (Hne Hday)). simpl.
    repeat split; exact Hday.
Qed.

Lemma daily_reset_precedes_recording_witness :
  Stats.dailyReset (stats Sample.state) ≠ "Tue Jan 02 2024" ∧
  Stats.todayMessages
    (stats (final (onStart "Tue Jan 02 2024" Sample.keys 42 Sample.state))) = 1 ∧
  Stats.dailyReset (stats Sample.state) = "Mon Jan 01 2024" ∧
  Stats.todayMessages
    (stats (final (onStart "Mon Jan 01 2024" Sample.keys 42 Sample.state))) = 6.
Proof.
  assert (Hne : Stats.dailyReset (stats Sample.state) ≠ "Tue Jan 02 2024")
    by (simpl; discriminate).
  assert (Heq : Stats.dailyReset (stats Sample.state) = "Mon Jan 01 2024")
    by reflexivity.
  split; [exact Hne|]. split.
  - exact (proj1 (proj1 (daily_reset_precedes_recording
             "Tue Jan 02 2024" Sample.accept_all Sample.keys 42
             (Sample.press "page_promo") Sample.state) Hne)).
  - split; [exact Heq|].
    exact (proj1 (proj2 (daily_reset_precedes_recording
             "Mon Jan 01 2024" Sample.accept_all Sample.keys 42
             (Sample.press "page_promo") Sample.state) Heq)).
Defined.

(** C5. A button press is not recorded like a [/start]: the handler counts
    the message twice over (all-time and today) and asks for a save, but the
    chat is added to neither user set; [/start] from the same chat is. *)
Theorem button_press_leaves_user_sets :
  let today := "Mon Jan 01 2024" in
  let pressed := onCallbackQuery today Sample.accept_all
                   (Sample.press "page_promo") Sample.empty_state in
  let started := onStart today Sample.keys 42 Sample.empty_state in
  Stats.users (stats (final pressed)) = ∅ ∧
  Stats.todayUsers (stats (final pressed)) = ∅ ∧
  Stats.messages (stats (final pressed)) = 1 ∧
  Stats.todayMessages (stats (final pressed)) = 1 ∧
  Call.saveData ∈ calls pressed ∧
  Stats.users (stats (final started)) = {[ 42%Z ]} ∧
  Stats.todayUsers (stats (final started)) = {[ 42%Z ]}.
Proof.
  cbv zeta. rewrite onStart_stats, onCallbackQuery_stats, resetDailyStats_run.
  simpl. repeat split; try apply (right_id_L ∅ (∪)).
  vm_compute. apply list_elem_of_here.
Qed.

(** ** Navigation *)

(** The prefixes tested by the button handler exclude one another. *)
Lemma prefixes_exclusive data :
  (Js.startsWith data "page_" = true → Js.startsWith data "file_" = false) ∧
  (Js.startsWith data "text_" = true →
     Js.startsWith data "file_" = false ∧ Js.startsWith data "page_" = false).
Proof.
  unfold Js.startsWith. destruct data as [|a data]; [split; discriminate|].
  destruct a as [[] [] [] [] [] [] [] []]; split; intros H;
    solve [discriminate H | reflexivity | split; reflexivity].
Qed.

Lemma inline_keyboard_rows g :
  Grid.rows_only g → ∃ k, inline_keyboard g = returned k.
Proof.
  induction 1 as [|s g Hs _ [k IH]]; simpl; [eauto|].
  destruct s; try discriminate. rewrite IH. eauto.
Qed.

Lemma get_own {A} (o : gmap string A) k a : o !! k = Some a → Js.get o k = Js.own a.
Proof. unfold Js.get. intros ->. reflexivity. Qed.

(** [showPage] returns on a key whose page, if the registry has one, has a
    grid made of rows. *)
Lemma showPage_returns chatId pageKey messageId σ :
  (∀ p, botData σ !! pageKey = Some p → Page.rows_only p) →
  result (showPage chatId pageKey messageId σ) = returned tt.
Proof.
  intros Hrows. unfold showPage, Js.get. run.
  destruct (botData σ !! pageKey) as [p|] eqn:E; simpl.
  - specialize (Hrows p eq_refl). unfold Page.rows_only in Hrows.
    destruct (Page.buttons p) as [g|]; simpl.
    + destruct (inline_keyboard_rows g Hrows) as [k ->].
      destruct messageId; reflexivity.
    + destruct messageId; reflexivity.
  - destruct (Js.is_prototype_name pageKey); simpl;
      [destruct messageId|]; reflexivity.
Qed.

(** Dispatch on the field the handler reads, [callback_data], once the
    acknowledgement went through.
    - [file_<id>]: a record under [<id>] with a transport handle is sent by
      MIME class to the chat (photo for [image/], video for [video/], audio
      for [audio/], else document), followed by an error notice only if the
      transport refuses it; when no record is there (or the record has no
      handle), a "file unavailable" notice is sent as a new message and
      nothing is edited.
    - [page_<key>]: the page is rendered into the pressed message by an
      edit; a key that does not resolve gets a "page unavailable" edit.
    - [text_<literal>]: the literal is sent as a new message.
    - anything else: the pressed message is edited into the "unknown
      button" notice.
    Whatever the payload, the handler returns, provided the grids of the
    registry are made of rows. *)
Lemma callback_dispatch today accepts query σ :
  let chatId := chat_id query in
  let messageId := message_id query in
  let data := Js.String_ (callback_data query) in
  let rest := Js.substring 5 data in
  let run := onCallbackQuery today accepts query σ in
  let before := calls (resetDailyStats today σ) ++
                [Call.saveData; Call.answerCallbackQuery (query_id query)] in
  accepts (Call.answerCallbackQuery (query_id query)) = true →
  (Js.startsWith data "file_" = true →
     (∀ file, filesData σ !! rest = Some file →
        Js.truthy (File.file_id file) = true →
        let delivery :=
          if Js.startsWith (File.type file) "image/"
          then Call.sendPhoto chatId (File.file_id file)
          else if Js.startsWith (File.type file) "video/"
          then Call.sendVideo chatId (File.file_id file)
          else if Js.startsWith (File.type file) "audio/"
          then Call.sendAudio chatId (File.file_id file)
          else Call.sendDocument chatId (File.file_id file) in
        calls run = before ++ delivery ::
          (if accepts delivery then []
           else [Call.sendMessage chatId FILE_SEND_ERROR None])) ∧
     (filesData σ !! rest = None ∨
      (∃ file, filesData σ !! rest = Some file ∧
               Js.truthy (File.file_id file) = false) →
        calls run = before ++ [Call.sendMessage chatId FILE_UNAVAILABLE None])) ∧
  (Js.startsWith data "page_" = true →
     (∀ page, botData σ !! rest = Some page → Page.rows_only page →
        ∃ keyboard,
          calls run = before ++
            [Call.editMessageText (page_text page) chatId messageId
               (Some (Call.mk_options keyboard "Markdown"))]) ∧
     (Js.get (botData σ) rest = Js.undefined →
        calls run = before ++
          [Call.editMessageText PAGE_UNAVAILABLE chatId messageId None])) ∧
  (Js.startsWith data "text_" = true →
     calls run = before ++ [Call.sendMessage chatId rest None]) ∧
  (Js.startsWith data "file_" = false → Js.startsWith data "page_" = false →
   Js.startsWith data "text_" = false →
     calls run = before ++
       [Call.editMessageText UNKNOWN_BUTTON chatId messageId None]) ∧
  ((∀ k p, botData σ !! k = Some p → Page.rows_only p) →
     result run = returned tt).
Proof.
  intros chatId messageId data rest run before Hack.
  destruct (prefixes_exclusive data) as [Hpage Htext].
  subst run before. unfold result, calls, onCallbackQuery, mbind, M_bind.
  rewrite !resetDailyStats_run.
  fold chatId messageId data rest.
  split; [|split; [|split; [|split]]].
  - intros Hfile. split.
    + intros file Hlook Hid.
      apply get_own in Hlook.
      case_bool_decide; run; unfold await, try_catch; rewrite Hack; simpl;
        rewrite Hfile; simpl; rewrite Hlook, Hid; simpl;
        repeat step; reflexivity.
    + intros Hlook.
      case_bool_decide; run; unfold await, try_catch; rewrite Hack; simpl;
        rewrite Hfile; simpl; unfold Js.get;
        (destruct Hlook as [->|(file & -> & Hid)];
         [destruct (Js.is_prototype_name rest)|simpl; rewrite Hid]);
        reflexivity.
  - intros Hp. specialize (Hpage Hp). split.
    + intros page Hlook Hrows.
      assert (∃ k, match Page.buttons page with
                   | Some g => inline_keyboard g | None => returned [] end
                   = returned k) as [k Hk].
      { unfold Page.rows_only in Hrows. destruct (Page.buttons page); [|eauto].
        by apply inline_keyboard_rows. }
      exists k. apply get_own in Hlook.
      case_bool_decide; run; unfold await, try_catch; rewrite Hack; simpl;
        rewrite Hpage, Hp; simpl; unfold Js.has; rewrite Hlook; simpl;
        unfold showPage; run; rewrite Hlook; simpl; rewrite Hk; simpl;
        reflexivity.
    + intros Hlook.
      case_bool_decide; run; unfold await, try_catch; rewrite Hack; simpl;
        rewrite Hpage, Hp; simpl; unfold Js.has; rewrite Hlook; simpl;
        reflexivity.
  - intros Ht. destruct (Htext Ht) as [Hf Hp].
    case_bool_decide; run; unfold await, try_catch; rewrite Hack; simpl;
      rewrite Hf, Hp, Ht; simpl; reflexivity.
  - intros Hf Hp Ht.
    case_bool_decide; run; unfold await, try_catch; rewrite Hack; simpl;
      rewrite Hf, Hp, Ht; simpl; reflexivity.
  - intros Hrows.
    case_bool_decide; run; unfold await, try_catch; rewrite Hack; simpl.
    all: destruct (Js.startsWith data "file_"); simpl;
      [repeat step; reflexivity|].
    all: destruct (Js.startsWith data "page_"); simpl;
      [|repeat step; reflexivity].
    all: destruct (Js.has _ rest); simpl; [|reflexivity].
    all: match goal with
         | |- context [showPage ?a ?b ?c ?s] =>
             pose proof (showPage_returns a b c s (Hrows b)) as Hr;
             destruct (showPage a b c s) as [[r s'] l];
             unfold result in Hr; simpl in Hr; subst r; reflexivity
         end.
Qed.

Lemma callback_dispatch_witness :
  Sample.accept_all (Call.answerCallbackQuery "cbq-1") = true ∧
  Js.startsWith "file_999" "file_" = true ∧
  filesData Sample.state !! "999" = None ∧
  calls (onCallbackQuery "Mon Jan 01 2024" Sample.accept_all
           (Sample.press "file_999") Sample.state) =
    [Call.saveData; Call.answerCallbackQuery "cbq-1";
     Call.sendMessage 42 FILE_UNAVAILABLE None].
Proof.
  assert (Hack : Sample.accept_all (Call.answerCallbackQuery "cbq-1") = true)
    by reflexivity.
  assert (Hfile : Js.startsWith "file_999" "file_" = true) by reflexivity.
  assert (Hnone : filesData Sample.state !! "999" = None) by reflexivity.
  split; [exact Hack|]. split; [exact Hfile|]. split; [exact Hnone|].
  exact (proj2 (proj1 (callback_dispatch "Mon Jan 01 2024"
           Sample.accept_all (Sample.press "file_999") Sample.state Hack)
           Hfile) (or_introl Hnone)).
Defined.

(** A query without the field [callback_data] is answered by the "unknown
    button" edit, whatever it carries in [data] and whatever the registries
    hold. *)
Remark query_without_callback_data today accepts id chat message payload σ :
  accepts (Call.answerCallbackQuery id) = true →
  onCallbackQuery today accepts (mkQuery id chat message payload None) σ =
    (returned tt,
     final (onCallbackQuery today accepts (mkQuery id chat message payload None) σ),
     calls (resetDailyStats today σ) ++
     [Call.saveData; Call.answerCallbackQuery id;
      Call.editMessageText UNKNOWN_BUTTON chat message None]).
Proof.
  intros Hack. unfold final, calls, onCallbackQuery, mbind, M_bind.
  rewrite !resetDailyStats_run.
  case_bool_decide; run; unfold await; simpl; rewrite Hack; reflexivity.
Qed.

(** C1. The payload of a pressed button is not dispatched.  The transport
    delivers it in the field [data] of the query; the handler reads the
    field [callback_data], which such a query does not have, and [String]
    turns the missing field into the text "undefined", which has none of
    the three prefixes.  A press on the [page_] button of a page that the
    registry holds, on the [file_] button of a stored file and on a [text_]
    button all end in the "unknown button" edit: no page is rendered, no
    file is delivered and no text is sent. *)
Theorem press_payload_is_not_dispatched :
  let run payload :=
    onCallbackQuery "Mon Jan 01 2024" Sample.accept_all
      (Sample.delivered_press payload) Sample.state in
  let unknown :=
    [Call.saveData; Call.answerCallbackQuery "cbq-1";
     Call.editMessageText UNKNOWN_BUTTON 42 7 None] in
  botData Sample.state !! "promo" = Some Sample.promo ∧
  filesData Sample.state !! "1700000000000" = Some Sample.photo ∧
  calls (run "page_promo") = unknown ∧
  calls (run "file_1700000000000") = unknown ∧
  calls (run "text_hello") = unknown.
Proof. cbv zeta. repeat split; reflexivity. Qed.

(** When the acknowledgement is refused, the awaited call throws and the
    handler stops there: the press is counted, nothing is dispatched. *)
Remark refused_acknowledgement_stops_the_handler today accepts query σ :
  accepts (Call.answerCallbackQuery (query_id query)) = false →
  result (onCallbackQuery today accepts query σ) = thrown Rejected ∧
  calls (onCallbackQuery today accepts query σ) =
    calls (resetDailyStats today σ) ++
    [Call.saveData; Call.answerCallbackQuery (query_id query)].
Proof.
  intros Hack. unfold result, calls, onCallbackQuery, mbind, M_bind.
  rewrite !resetDailyStats_run.
  case_bool_decide; run; unfold await; rewrite Hack; split; reflexivity.
Qed.

(** For a key that does not resolve in the page registry ([botData[pageKey]]
    is [undefined]), [showPage] sends the "page not found" notice to the chat
    as a new message, with or without a message id, and returns; the state
    is left as it was. *)
Lemma showPage_unknown_key chatId pageKey messageId σ :
  Js.get (botData σ) pageKey = Js.undefined →
  showPage chatId pageKey messageId σ =
    (returned tt, σ, [Call.sendMessage chatId PAGE_NOT_FOUND None]).
Proof. intros H. unfold showPage. run. rewrite H. reflexivity. Qed.

Example showPage_nowhere :
  showPage 42 "nowhere" (Some 7%positive) Sample.state =
    (returned tt, Sample.state, [Call.sendMessage 42 PAGE_NOT_FOUND None]).
Proof. by apply showPage_unknown_key. Qed.

(** The text rendered for an object without [title] and [message]. *)
Example page_text_of_a_built_in :
  page_text Page.empty =
    "undefined" +:+ String (Ascii.ascii_of_nat 10)
      (String (Ascii.ascii_of_nat 10) "undefined").
Proof. reflexivity. Qed.

(** C2. A key that the registry does not hold but that names a member of
    [Object.prototype] is not reported as missing: [botData["constructor"]]
    is the built-in found on the prototype chain, the test [!page] does not
    fire, and [showPage] renders that object as a page, editing the message
    into the text of a page without title and message under an empty
    keyboard.  No "page not found" notice is sent. *)
Theorem showPage_renders_inherited_name :
  let run := showPage 42 "constructor" (Some 7%positive) Sample.state in
  botData Sample.state !! "constructor" = None ∧
  result run = returned tt ∧
  calls run =
    [Call.editMessageText (page_text Page.empty) 42 7
       (Some (Call.mk_options [] "Markdown"))] ∧
  Call.sendMessage 42 PAGE_NOT_FOUND None ∉ calls run.
Proof.
  cbv zeta. split; [reflexivity|]. split; [reflexivity|]. split; [reflexivity|].
  intros Hin. apply list_elem_of_singleton in Hin. discriminate Hin.
Qed.

(** The same on any registry without such an own key, for a new message. *)
Remark showPage_inherited_name chatId σ :
  botData σ !! "constructor" = None →
  calls (showPage chatId "constructor" None σ) =
    [Call.sendMessage chatId
       (page_text Page.empty) (Some (Call.mk_options [] "Markdown"))].
Proof. intros H. unfold showPage, Js.get. run. rewrite H. reflexivity. Qed.

(** ** Buttons *)

Lemma own_page (o : gmap string Page.t) k p :
  o !! k = Some p → Js.get o k = Js.own p.
Proof. apply get_own. Qed.

(** A row index that names a row: the button goes to the end of that row
    and nothing else changes. *)
Lemma add_to_grid_in_row g b r rw :
  g !! r = Some (Grid.row rw) →
  add_to_grid (Some g) b (Some r) = <[r := Grid.row (rw ++ [b])]> g.
Proof.
  intros H. unfold add_to_grid. simpl. rewrite H.
  apply list_eq. intros i. destruct (decide (i = r)) as [->|Hne].
  - rewrite list_lookup_alter_eq, H. simpl.
    symmetry. apply list_lookup_insert_eq. by apply lookup_lt_Some in H.
  - rewrite list_lookup_alter_ne by congruence.
    symmetry. apply list_lookup_insert_ne. congruence.
Qed.

Lemma alter_at_end {A} (f : A → A) (l : list A) (x : A) :
  alter f (length l) (l ++ [x]) = l ++ [f x].
Proof.
  induction l as [|a l IH]; [reflexivity|].
  simpl. f_equal. exact IH.
Qed.

(** No row index, or the index just past the last row: a new row holding
    the button is appended. *)
Lemma add_to_grid_new_row g b rowIndex :
  rowIndex = None ∨ rowIndex = Some (length g) →
  add_to_grid (Some g) b rowIndex = g ++ [Grid.row [b]].
Proof.
  intros H. unfold add_to_grid. simpl.
  assert (default (length g) rowIndex = length g) as -> by (by destruct H as [->| ->]).
  rewrite (lookup_ge_None_2 g (length g)) by lia.
  unfold Js.array_set. rewrite decide_False by lia.
  rewrite Nat.sub_diag. simpl. apply (alter_at_end (push_button b)).
Qed.


(** The route on a page of the registry. *)
Lemma addButton_on_page pageId buttonData rowIndex page σ :
  botData σ !! pageId = Some page →
  Js.truthy (Button.text buttonData) = true →
  addButton pageId (Some buttonData) rowIndex σ =
    (returned success,
     with_botData <[pageId := Page.set_buttons page
        (add_to_grid (Page.buttons page) buttonData rowIndex)]> σ,
     [Call.saveData]).
Proof.
  intros Hp Ht. apply own_page in Hp.
  unfold addButton. run. rewrite Hp, Ht. reflexivity.
Qed.

(** The scenario of the specification: a button posted without [rowIndex]
    to a page whose [buttons] is [[]]. *)
Example add_first_button :
  Page.buttons <$>
    (botData (final (addButton "promo" (Some Sample.go) None Sample.state))
       !! "promo")
  = Some (Some [Grid.row [Sample.go]]).
Proof. reflexivity. Qed.

(** C6. A row index beyond the last row does not append a row: the grid is
    extended up to that index, and the slots in between stay empty.  On a
    page whose [buttons] is [[]], [rowIndex = 2] yields an array of length
    three with two empty slots, not the single row [[[button]]]. *)
Theorem add_button_past_the_end_leaves_holes :
  let run := addButton "promo" (Some Sample.go) (Some 2) Sample.state in
  result run = returned success ∧
  Page.buttons <$> (botData (final run) !! "promo") =
    Some (Some [Grid.hole; Grid.hole; Grid.row [Sample.go]]) ∧
  Page.buttons <$> (botData (final run) !! "promo") ≠
    Some (Some ([] ++ [Grid.row [Sample.go]])).
Proof. cbv zeta. split; [reflexivity|]. split; [reflexivity|discriminate]. Qed.

Lemma delete_insert_same {A} (l : list A) i x :
  delete i (<[i := x]> l) = delete i l.
Proof.
  revert i. induction l as [|a l IH]; intros [|i]; simpl; try reflexivity.
  by rewrite IH.
Qed.



(** ** The page registry against the reference map *)

(** For a key that is not an inherited name, [botData[k]] is the own entry,
    and assigning to it creates or replaces the own entry. *)
Lemma get_plain {A} (o : gmap string A) k :
  Js.is_prototype_name k = false →
  Js.get o k = match o !! k with Some a => Js.own a | None => Js.undefined end.
Proof. intros H. unfold Js.get. by rewrite H. Qed.

Lemma set_plain {A} (o : gmap string A) k v :
  Js.is_prototype_name k = false → Js.set o k v = <[k := v]> o.
Proof.
  intros H. unfold Js.set.
  destruct (String.eqb_spec k "__proto__") as [->|_]; [discriminate H|reflexivity].
Qed.

Lemma same_keys_lookup (m1 m2 : gmap string Page.t) k :
  dom m1 = dom m2 → is_Some (m1 !! k) ↔ is_Some (m2 !! k).
Proof. intros H. by rewrite <- !elem_of_dom, H. Qed.

(** One admissible request keeps the two key sets equal and gives the
    corresponding answer. *)
Lemma request_simulates o σ m :
  admissible o → dom (botData σ) = dom m →
  dom (botData (final (request o σ))) = dom (Reference.apply o m).1 ∧
  result (request o σ) = returned (Reference.response_of (Reference.apply o m).2).
Proof.
  intros Ha Hdom.
  pose proof (λ k, same_keys_lookup (botData σ) m k Hdom) as Hk.
  assert (Hsame : ∀ k, (botData σ !! k = None ∧ m !! k = None) ∨
                       (is_Some (botData σ !! k) ∧ is_Some (m !! k))).
  { intros k. specialize (Hk k).
    destruct (botData σ !! k) eqn:E1, (m !! k) eqn:E2; eauto.
    - destruct (proj1 Hk (mk_is_Some _ _ eq_refl)) as [? [=]].
    - destruct (proj2 Hk (mk_is_Some _ _ eq_refl)) as [? [=]]. }
  destruct o as [k p|k p|k]; simpl in *.
  - destruct Ha as (Hid & Ht & Hm & Hk').
    unfold createPage, Reference.create, Js.has. rewrite Hid, Ht, Hm. run.
    rewrite (get_plain _ _ Hk').
    destruct (Hsame k) as [[-> ->]|[[q ->] [q' ->]]]; simpl.
    + split; [|reflexivity]. unfold final. simpl.
      by rewrite (set_plain _ _ _ Hk'), !dom_insert_L, Hdom.
    + by split.
  - unfold updatePage, Reference.update. run.
    rewrite (get_plain _ _ Ha).
    destruct (Hsame k) as [[-> ->]|[[q ->] [q' ->]]]; simpl.
    + by split.
    + split; [|reflexivity]. unfold final. simpl.
      by rewrite (set_plain _ _ _ Ha), !dom_insert_L, Hdom.
  - unfold deletePage, Reference.remove, Js.has. run.
    rewrite (get_plain _ _ Ha).
    destruct (Hsame k) as [[-> ->]|[[q ->] [q' ->]]]; simpl.
    + by split.
    + split; [|reflexivity]. unfold final. simpl.
      by rewrite !dom_delete_L, Hdom.
Qed.

(** The three routes always return. *)
Lemma request_returns o σ : ∃ r, result (request o σ) = returned r.
Proof.
  destruct o as [k p|k p|k]; simpl.
  - unfold createPage. run. repeat step; eauto.
  - unfold updatePage. run.
    destruct (Page.of_property _); eauto.
  - unfold deletePage. run. repeat step; eauto.
Qed.

Lemma replay_cons o ops σ :
  replay (o :: ops) σ =
    match request o σ with
    | (returned r, σ1, l1) =>
        match replay ops σ1 with
        | (returned rs, σ2, l2) => (returned (r :: rs), σ2, l1 ++ (l2 ++ []))
        | (thrown e, σ2, l2) => (thrown e, σ2, l1 ++ l2)
        end
    | (thrown e, σ1, l1) => (thrown e, σ1, l1)
    end.
Proof.
  simpl. unfold mbind, M_bind, mret, M_ret.
  destruct (request o σ) as [[[r|e] σ1] l1]; [|reflexivity].
  destruct (replay ops σ1) as [[[rs|e] σ2] l2]; reflexivity.
Qed.

Lemma replay_simulates ops : ∀ σ m,
  Forall admissible ops → dom (botData σ) = dom m →
  dom (botData (final (replay ops σ))) = dom (Reference.replay ops m).1 ∧
  result (replay ops σ) =
    returned (Reference.response_of <$> (Reference.replay ops m).2).
Proof.
  induction ops as [|o ops IH]; intros σ m Hall Hdom.
  - by split.
  - inversion Hall as [|? ? Ho Hops]; subst.
    destruct (request_simulates o σ m Ho Hdom) as [Hd Hr].
    rewrite replay_cons. simpl.
    destruct (request o σ) as [[r σ1] l1]. unfold final, result in Hd, Hr.
    simpl in Hd, Hr. subst r.
    destruct (Reference.apply o m) as [m1 s] eqn:Ea. simpl in Hd.
    destruct (IH σ1 m1 Hops Hd) as [Hd' Hr'].
    destruct (replay ops σ1) as [[rs σ2] l2]. unfold final, result in Hd', Hr'.
    simpl in Hd', Hr'. subst rs.
    destruct (Reference.replay ops m1) as [m2 ss]. by split.
Qed.

(** A create request with an empty title is refused by the validation of
    the route, before the key is looked at. *)
Remark create_with_empty_title_differs :
  let ops := [Create "promo" (Page.mk (Some "") (Some "Hi") (Some []))] in
  result (replay ops Sample.empty_state) = returned [failure 400] ∧
  (Reference.replay ops (botData Sample.empty_state)).2 = [Reference.done] ∧
  dom (botData (final (replay ops Sample.empty_state))) ≠
  dom (Reference.replay ops (botData Sample.empty_state)).1.
Proof.
  cbv zeta. split; [reflexivity|]. split; [reflexivity|]. intros H.
  assert (Hin : "promo" ∈ dom (Reference.replay
                  [Create "promo" (Page.mk (Some "") (Some "Hi") (Some []))]
                  (botData Sample.empty_state)).1).
  { apply elem_of_dom. by eexists. }
  rewrite <- H in Hin. apply elem_of_dom in Hin as [p Hp]. discriminate Hp.
Qed.

(** A request that is refused leaves the state as it was and asks for no
    save. *)
Lemma refused_request_changes_nothing o σ status :
  result (request o σ) = returned (failure status) →
  request o σ = (returned (failure status), σ, []).
Proof.
  destruct o as [k p|k p|k]; simpl.
  - unfold createPage, result. run. repeat step; intros [= <-]; reflexivity.
  - unfold updatePage, result. run.
    destruct (Page.of_property _); simpl; intros [= <-]; reflexivity.
  - unfold deletePage, result. run. repeat step; intros [= <-]; reflexivity.
Qed.

(** Away from the built-in names the routes follow the reference map: for
    every sequence of create, update and delete requests in which each
    create carries a non-empty id, title and message and no key is a name
    inherited by every object, the key set of the registry after the replay
    equals the key set of the reference map after the same sequence, and
    the answers correspond request by request: success where the map
    succeeds, 400 where it reports an existing key, 404 where it reports a
    missing one. *)
Lemma registry_keys_follow_reference_map ops σ :
  Forall admissible ops →
  dom (botData (final (replay ops σ))) =
    dom (Reference.replay ops (botData σ)).1 ∧
  result (replay ops σ) =
    returned (Reference.response_of <$> (Reference.replay ops (botData σ)).2).
Proof. intros H. by apply replay_simulates. Qed.

Lemma registry_keys_follow_reference_map_witness :
  let ops := [Create "news" (Page.mk (Some "News") (Some "Soon") None);
              Create "news" (Page.mk (Some "Again") (Some "Later") None);
              Update "ghost" (Page.mk (Some "Boo") None None);
              Delete "promo"; Delete "promo"] in
  Forall admissible ops ∧
  dom (botData (final (replay ops Sample.state))) =
    dom (Reference.replay ops (botData Sample.state)).1 ∧
  result (replay ops Sample.state) =
    returned [success; failure 400; failure 404; success; failure 404].
Proof.
  cbv zeta.
  assert (H : Forall admissible
                [Create "news" (Page.mk (Some "News") (Some "Soon") None);
                 Create "news" (Page.mk (Some "Again") (Some "Later") None);
                 Update "ghost" (Page.mk (Some "Boo") None None);
                 Delete "promo"; Delete "promo"])
    by (repeat constructor).
  split; [exact H|].
  exact (registry_keys_follow_reference_map _ Sample.state H).
Defined.

(** C3. On a key that names a member of [Object.prototype] the routes do
    not follow the reference map.  On the empty registry, where the map
    holds no key: an update of [constructor] is accepted and leaves the key
    behind, where the map gives the not-found signal and stays empty; a
    delete of [constructor] is accepted, where the map gives the not-found
    signal; and a create of [constructor] is refused as existing, where the
    map stores the key.  The existence tests read [botData[pageId]], which
    finds the inherited built-in. *)
Theorem inherited_names_leave_the_reference_map :
  let page := Page.mk (Some "x") (Some "y") None in
  let routes ops := replay ops Sample.empty_state in
  let map ops := Reference.replay ops (botData Sample.empty_state) in
  botData Sample.empty_state = ∅ ∧
  (result (routes [Update "constructor" page]) = returned [success] ∧
   dom (botData (final (routes [Update "constructor" page]))) =
     {[ "constructor" ]} ∧
   map [Update "constructor" page] = (∅, [Reference.not_found])) ∧
  (result (routes [Delete "constructor"]) = returned [success] ∧
   map [Delete "constructor"] = (∅, [Reference.not_found])) ∧
  (result (routes [Create "constructor" page]) = returned [failure 400] ∧
   botData (final (routes [Create "constructor" page])) = ∅ ∧
   map [Create "constructor" page] =
     ({[ "constructor" := page ]}, [Reference.done])).
Proof.
  cbv zeta. split; [reflexivity|]. split; [|split].
  - split; [reflexivity|]. split; [|reflexivity].
    vm_compute. reflexivity.
  - split; reflexivity.
  - split; [reflexivity|]. split; reflexivity.
Qed.

(** ** Export and import *)

Lemma json_slot_id s : s ≠ Grid.hole → Grid.json_slot s = s.
Proof. by destruct s. Qed.

Lemma json_grid_id g : Grid.no_holes g → Grid.json g = g.
Proof.
  unfold Grid.json. induction 1 as [|s g Hs _ IH]; [reflexivity|].
  by rewrite fmap_cons, json_slot_id, IH.
Qed.

Lemma json_page_id p : Page.no_holes p → Page.json p = p.
Proof.
  destruct p as [t m [g|]]; unfold Page.no_holes, Page.json; simpl; [|done].
  intros H. by rewrite json_grid_id.
Qed.

Lemma json_registry_id (o : gmap string Page.t) :
  (∀ k p, o !! k = Some p → Page.no_holes p) → Page.json <$> o = o.
Proof.
  intros H. apply map_eq. intros k. rewrite lookup_fmap.
  destruct (o !! k) as [p|] eqn:E; simpl; [|reflexivity].
  by rewrite (json_page_id p (H k p E)).
Qed.

(** An empty slot does not survive the document: it comes back as [null]. *)
Remark json_turns_hole_into_null :
  Grid.json [Grid.hole; Grid.row [Sample.go]] = [Grid.null; Grid.row [Sample.go]].
Proof. reflexivity. Qed.

Lemma exportData_run today now σ :
  exportData today now σ =
    let '(_, σ1, l) := resetDailyStats today σ in
    (returned (Backup.json
       (Backup.mk (Some (botData σ1)) (Some (filesData σ1))
          (Some (Backup.mk_stats
                   (Some (Backup.ids (elements (Stats.users (stats σ1)))))
                                 (Some (Stats.messages (stats σ1)))
                                 (Some (Stats.startDate (stats σ1)))))
          (Some now))),
     σ1, l).
Proof.
  unfold exportData, mbind, M_bind. rewrite resetDailyStats_run.
  case_bool_decide; run; reflexivity.
Qed.

(** An import whose [stats.totalUsers], if the document has it, can be
    iterated. *)
Lemma importData_run today now doc σ :
  (∀ s n, Backup.stats doc = Some s →
          Backup.totalUsers s ≠ Some (Backup.count (S n))) →
  importData today now (parsed doc) σ =
    (returned success,
     mkState (default (botData σ) (Backup.botData doc))
             (default (filesData σ) (Backup.filesData doc))
             (match Backup.stats doc with
              | Some s =>
                  Stats.mk (match Backup.totalUsers s with
                            | Some (Backup.ids l) => list_to_set l
                            | _ => ∅
                            end)
                           (default 0 (Backup.totalMessages s))
                           ∅ 0
                           (default now (Backup.startDate s))
                           today
              | None => stats σ
              end),
     [Call.saveData]).
Proof.
  intros Hiter. unfold importData, try_catch. run. destruct σ as [b f s].
  destruct (Backup.botData doc), (Backup.filesData doc),
    (Backup.stats doc) as [d|]; simpl; try reflexivity.
  all: specialize (Hiter d).
  all: destruct (Backup.totalUsers d) as [[l|[|n]]|]; simpl; try reflexivity.
  all: by destruct (Hiter n eq_refl).
Qed.

(** An import whose [stats.totalUsers] is a number other than 0 stops at
    [new Set]: the registries of the document are in place, the statistics
    are those before, and the answer is 500 without a save. *)
Lemma importData_stops today now doc d n σ :
  Backup.stats doc = Some d → Backup.totalUsers d = Some (Backup.count (S n)) →
  importData today now (parsed doc) σ =
    (returned (failure 500),
     mkState (default (botData σ) (Backup.botData doc))
             (default (filesData σ) (Backup.filesData doc))
             (stats σ),
     []).
Proof.
  intros Hd Hn. unfold importData, try_catch. run. destruct σ as [b f s].
  rewrite Hd. simpl. rewrite Hn. simpl.
  destruct (Backup.botData doc), (Backup.filesData doc); reflexivity.
Qed.

(** Export followed by import of the exported document gives back the
    page registry as JSON writes it and the file registry as it was; on a
    registry whose button grids have no empty slots the page registry comes
    back identical.  The statistics are not kept as they were: the all-time
    users and messages come back, the today set and counter are reset. *)
Lemma export_then_import_restores_registries today1 now1 today2 now2 σ :
  ∃ doc,
    result (exportData today1 now1 σ) = returned doc ∧
    let σ1 := final (exportData today1 now1 σ) in
    let imported := importData today2 now2 (parsed doc) σ1 in
    result imported = returned success ∧
    botData (final imported) = Page.json <$> botData σ ∧
    ((∀ k p, botData σ !! k = Some p → Page.no_holes p) →
       botData (final imported) = botData σ) ∧
    filesData (final imported) = filesData σ ∧
    Stats.users (stats (final imported)) = Stats.users (stats σ) ∧
    Stats.messages (stats (final imported)) = Stats.messages (stats σ) ∧
    Stats.todayUsers (stats (final imported)) = ∅ ∧
    Stats.todayMessages (stats (final imported)) = 0.
Proof.
  rewrite exportData_run, resetDailyStats_run.
  case_bool_decide; eexists; (split; [reflexivity|]); cbv zeta;
    (rewrite importData_run by (simpl; intros ? ? [= <-]; discriminate));
    unfold final, result; simpl;
    rewrite list_to_set_elements_L;
    (repeat split; try done); apply json_registry_id.
Qed.

Lemma sample_grids_are_dense k p :
  botData Sample.state !! k = Some p → Page.no_holes p.
Proof.
  intros Hp. simpl in Hp.
  destruct (decide (k = "main_page")) as [->|?];
    [rewrite lookup_insert_eq in Hp|rewrite lookup_insert_ne in Hp by done].
  { injection Hp as <-. repeat constructor; discriminate. }
  destruct (decide (k = "promo")) as [->|?];
    [rewrite lookup_insert_eq in Hp|rewrite lookup_insert_ne in Hp by done].
  { injection Hp as <-. constructor. }
  destruct (decide (k = "single")) as [->|?];
    [rewrite lookup_insert_eq in Hp|rewrite lookup_insert_ne in Hp by done].
  { injection Hp as <-. repeat constructor; discriminate. }
  rewrite lookup_empty in Hp. discriminate Hp.
Defined.

Example export_then_import_of_the_sample :
  (∀ k p, botData Sample.state !! k = Some p → Page.no_holes p) ∧
  ∃ doc,
    result (exportData "Tue Jan 02 2024" 1000 Sample.state) = returned doc ∧
    botData (final (importData "Wed Jan 03 2024" 2000 (parsed doc)
              (final (exportData "Tue Jan 02 2024" 1000 Sample.state))))
      = botData Sample.state.
Proof.
  split; [exact sample_grids_are_dense|].
  destruct (export_then_import_restores_registries
              "Tue Jan 02 2024" 1000 "Wed Jan 03 2024" 2000 Sample.state)
    as (doc & Hdoc & _ & _ & Hpages & _).
  exists doc. split; [exact Hdoc | exact (Hpages sample_grids_are_dense)].
Defined.

(** C8. After the button route has accepted a row index past the end of a
    grid (the input of C6), export followed by import does not give the
    page registry back: the two empty slots of the grid are written as
    [null], the imported grid differs from the exported one, and the page,
    which [showPage] rendered before the round trip, makes it throw
    afterwards. *)
Theorem round_trip_loses_the_empty_slots :
  let σ := final (addButton "promo" (Some Sample.go) (Some 2) Sample.state) in
  let exported := exportData "Mon Jan 01 2024" 1000 σ in
  ∃ doc,
    result (addButton "promo" (Some Sample.go) (Some 2) Sample.state) =
      returned success ∧
    result exported = returned doc ∧
    let imported := importData "Mon Jan 01 2024" 2000 (parsed doc) (final exported) in
    result imported = returned success ∧
    botData σ !! "promo" =
      Some (Page.mk (Some "Promo") (Some "Hi")
              (Some [Grid.hole; Grid.hole; Grid.row [Sample.go]])) ∧
    botData (final imported) !! "promo" =
      Some (Page.mk (Some "Promo") (Some "Hi")
              (Some [Grid.null; Grid.null; Grid.row [Sample.go]])) ∧
    botData (final imported) ≠ botData σ ∧
    result (showPage 42 "promo" None σ) = returned tt ∧
    result (showPage 42 "promo" None (final imported)) = thrown TypeError.
Proof.
  cbv zeta. eexists. split; [reflexivity|]. split; [reflexivity|].
  split; [reflexivity|]. split; [reflexivity|]. split; [reflexivity|].
  split; [|split; reflexivity].
  intros H.
  apply (f_equal (λ o : gmap string Page.t, o !! "promo")) in H.
  vm_compute in H. discriminate H.
Qed.

(** Import of a document whose [stats.totalUsers], if present, is an array
    (or 0) replaces the page registry when the document has [botData] and
    keeps it otherwise, replaces the file registry when it has [filesData]
    and keeps it otherwise, and leaves the statistics alone when it has no
    [stats]; with [stats], the all-time figures are taken from the document
    and the today figures are reset.  The import answers success and asks
    for one save. *)
Lemma import_touches_present_keys_only today now doc σ :
  (∀ s n, Backup.stats doc = Some s →
          Backup.totalUsers s ≠ Some (Backup.count (S n))) →
  let imported := importData today now (parsed doc) σ in
  result imported = returned success ∧
  calls imported = [Call.saveData] ∧
  botData (final imported) =
    match Backup.botData doc with Some b => b | None => botData σ end ∧
  filesData (final imported) =
    match Backup.filesData doc with Some f => f | None => filesData σ end ∧
  stats (final imported) =
    match Backup.stats doc with
    | Some s =>
        Stats.mk (match Backup.totalUsers s with
                  | Some (Backup.ids l) => list_to_set l
                  | _ => ∅
                  end)
                 (default 0 (Backup.totalMessages s))
                 ∅ 0 (default now (Backup.startDate s)) today
    | None => stats σ
    end.
Proof.
  intros Hiter. cbv zeta. rewrite (importData_run _ _ _ _ Hiter).
  unfold result, calls, final. simpl.
  by destruct (Backup.botData doc), (Backup.filesData doc).
Qed.

(** C9. A partial backup with [botData] and [stats] and without
    [filesData], whose [stats.totalUsers] is a number of users as the
    export of the older program writes it: the page registry is replaced
    and the file registry kept, but the statistics, whose key is present,
    are not replaced; [new Set] throws on the number, the answer is 500 and
    no save is asked for, so the page registry in memory is no longer the
    one on disk. *)
Theorem import_of_a_user_count_stops_half_way :
  let pages : gmap string Page.t := {[ "single" := Sample.single ]} in
  let doc :=
    Backup.mk (Some pages) None
      (Some (Backup.mk_stats (Some (Backup.count 3)) (Some 10) None)) None in
  let imported := importData "Tue Jan 02 2024" 2000 (parsed doc) Sample.state in
  result imported = returned (failure 500) ∧
  calls imported = [] ∧
  botData (final imported) = pages ∧
  botData Sample.state ≠ pages ∧
  filesData (final imported) = filesData Sample.state ∧
  stats (final imported) = stats Sample.state.
Proof.
  cbv zeta. split; [reflexivity|]. split; [reflexivity|].
  split; [reflexivity|]. split; [|split; reflexivity].
  intros H.
  apply (f_equal (λ o : gmap string Page.t, o !! "promo")) in H.
  vm_compute in H. discriminate H.
Qed.

(** ** Search *)

(** C10. A search whose [q] is missing or empty answers with two empty
    lists, whatever the registries hold, and leaves the state as it was
    without making any call. *)
Theorem search_without_query_is_empty keys lowercase σ :
  search keys lowercase None σ = (returned ([], []), σ, []) ∧
  search keys lowercase (Some "") σ = (returned ([], []), σ, []).
Proof. split; reflexivity. Qed.

(** With a query, the registries are consulted. *)
Example search_finds_promo :
  result (search Sample.keys Sample.lowercase (Some "PRO") Sample.state) =
    returned ([Hit.mk_page "promo" (Some "Promo")], []).
Proof. vm_compute. reflexivity. Qed.

(** * Further properties *)

(** ** The store across a restart *)

Lemma loaded_stats_of_saved today now s :
  Js.truthy (Stats.dailyReset s) = true →
  loaded_stats today now (statsToSave s) = s.
Proof.
  intros H. destruct s as [u m tu tm sd dr]. unfold loaded_stats, statsToSave.
  simpl in *. rewrite H. by rewrite !list_to_set_elements_L.
Qed.

(** X1. Loading what [saveData] wrote is the daily roll of the saved state,
    whatever the memory held before: the file registry and the statistics
    come back as they were and the page registry as JSON writes it, and if
    the day has changed the today figures are cleared and a save is asked
    for.  On the same day, with no empty slot in a grid, the state is the
    saved one. *)
Theorem restart_is_a_daily_roll today now σ σ0 :
  Js.truthy (Stats.dailyReset (stats σ)) = true →
  loadData today now (saved σ) σ0 =
    resetDailyStats today
      (mkState (Page.json <$> botData σ) (filesData σ) (stats σ)) ∧
  (Stats.dailyReset (stats σ) = today →
   (∀ k p, botData σ !! k = Some p → Page.no_holes p) →
   loadData today now (saved σ) σ0 = (returned tt, σ, [])).
Proof.
  intros Hday.
  assert (Hload : loadData today now (saved σ) σ0 =
            resetDailyStats today
              (mkState (Page.json <$> botData σ) (filesData σ) (stats σ))).
  { unfold loadData, saved, mbind, M_bind. simpl.
    unfold modify, with_stats. simpl.
    rewrite (loaded_stats_of_saved today now _ Hday).
    destruct (resetDailyStats today _) as [[[] ?] ?]; reflexivity. }
  split; [exact Hload|].
  intros Hsame Hdense. rewrite Hload, resetDailyStats_run. simpl.
  rewrite bool_decide_false by (intros Hne; exact (Hne Hsame)).
  rewrite (json_registry_id _ Hdense). by destruct σ.
Qed.

Lemma restart_is_a_daily_roll_witness :
  Js.truthy (Stats.dailyReset (stats Sample.state)) = true ∧
  loadData "Mon Jan 01 2024" 5000 (saved Sample.state) Sample.empty_state =
    (returned tt, Sample.state, []).
Proof.
  assert (H : Js.truthy (Stats.dailyReset (stats Sample.state)) = true)
    by reflexivity.
  split; [exact H|].
  exact (proj2 (restart_is_a_daily_roll "Mon Jan 01 2024" 5000 Sample.state
                  Sample.empty_state H) eq_refl sample_grids_are_dense).
Defined.

(** X2. Each data file is loaded on its own.  A missing file resets its
    part of the state to the empty default; a file that cannot be read or
    parsed leaves its part as the memory had it; neither disturbs the other
    two parts. *)
Theorem loadData_one_document_at_a_time today now disk σ0 :
  let σ := final (loadData today now disk σ0) in
  botData σ = match DATA_FILE disk with
              | contents data => data
              | ENOENT => ∅
              | unreadable => botData σ0
              end ∧
  filesData σ = match FILES_FILE disk with
                | contents data => data
                | ENOENT => ∅
                | unreadable => filesData σ0
                end ∧
  stats σ = match STATS_FILE disk with
            | contents d =>
                stats (final (resetDailyStats today
                         (with_stats (λ _, loaded_stats today now d) σ0)))
            | ENOENT => Stats.mk ∅ 0 ∅ 0 now today
            | unreadable => stats σ0
            end ∧
  result (loadData today now disk σ0) = returned tt.
Proof.
  cbv zeta. unfold loadData, mbind, M_bind.
  destruct disk as [[| |b] [| |f] [| |d]]; simpl; unfold modify; simpl;
    try (repeat split; reflexivity).
  all: rewrite !resetDailyStats_run; simpl;
    case_bool_decide; repeat split; reflexivity.
Qed.

(** ** What the bot handlers leave alone *)

Lemma onStart_registries today keys chatId σ :
  botData (final (onStart today keys chatId σ)) = botData σ ∧
  filesData (final (onStart today keys chatId σ)) = filesData σ.
Proof.
  split; unfold onStart; unfold mbind at 1; unfold M_bind at 1;
    rewrite resetDailyStats_run;
    case_bool_decide; run; repeat step; reflexivity.
Qed.

Lemma onCallbackQuery_registries today accepts query σ :
  botData (final (onCallbackQuery today accepts query σ)) = botData σ ∧
  filesData (final (onCallbackQuery today accepts query σ)) = filesData σ.
Proof.
  split; unfold onCallbackQuery; unfold mbind at 1; unfold M_bind at 1;
    rewrite resetDailyStats_run;
    case_bool_decide; run; unfold await, try_catch; repeat step; reflexivity.
Qed.

(** X3. Neither a [/start] nor a button press changes the page registry or
    the file registry, whatever the payload and whatever the transport
    answers. *)
Theorem bot_events_leave_registries today accepts keys chatId query σ :
  let started := final (onStart today keys chatId σ) in
  let pressed := final (onCallbackQuery today accepts query σ) in
  botData started = botData σ ∧ filesData started = filesData σ ∧
  botData pressed = botData σ ∧ filesData pressed = filesData σ.
Proof.
  cbv zeta.
  destruct (onStart_registries today keys chatId σ) as [? ?].
  destruct (onCallbackQuery_registries today accepts query σ) as [? ?].
  by repeat split.
Qed.

(** ** Statistics over any sequence of events *)

Ltac quiet :=
  run; repeat (first [step | case_match; simplify_eq; simpl]); reflexivity.

Lemma createPage_stats pageId pageData σ :
  stats (final (createPage pageId pageData σ)) = stats σ.
Proof. unfold createPage. quiet. Qed.

Lemma updatePage_stats pageId pageData σ :
  stats (final (updatePage pageId pageData σ)) = stats σ.
Proof. unfold updatePage. quiet. Qed.

Lemma deletePage_stats pageId σ :
  stats (final (deletePage pageId σ)) = stats σ.
Proof. unfold deletePage. quiet. Qed.

Lemma addButton_stats pageId buttonData rowIndex σ :
  stats (final (addButton pageId buttonData rowIndex σ)) = stats σ.
Proof. unfold addButton. quiet. Qed.

Lemma deleteButton_stats pageId rowIndex buttonIndex σ :
  stats (final (deleteButton pageId rowIndex buttonIndex σ)) = stats σ.
Proof. unfold deleteButton. quiet. Qed.

Lemma uploadFile_stats send timestamp isoDate file admin σ :
  stats (final (uploadFile send timestamp isoDate file admin σ)) = stats σ.
Proof. unfold uploadFile. quiet. Qed.

Lemma deleteFile_stats fileId σ :
  stats (final (deleteFile fileId σ)) = stats σ.
Proof. unfold deleteFile. quiet. Qed.

Lemma search_final keys lowercase q σ :
  final (search keys lowercase q σ) = σ.
Proof. unfold search. quiet. Qed.

Lemma getStats_final today now keys σ :
  final (getStats today now keys σ) = final (resetDailyStats today σ).
Proof.
  unfold getStats, mbind, M_bind. rewrite !resetDailyStats_run.
  case_bool_decide; reflexivity.
Qed.

Lemma detailedStats_final today now keys σ :
  final (detailedStats today now keys σ) = final (resetDailyStats today σ).
Proof.
  unfold detailedStats, mbind, M_bind. rewrite !resetDailyStats_run.
  case_bool_decide; run;
    (destruct (map_keys (page_line _) _); simpl; [|reflexivity]);
    destruct (map_keys (file_line _) _); reflexivity.
Qed.

Lemma exportData_final today now σ :
  final (exportData today now σ) = final (resetDailyStats today σ).
Proof.
  rewrite exportData_run, resetDailyStats_run. case_bool_decide; reflexivity.
Qed.

Lemma reset_keeps_today_within_total today σ :
  today_within_total (stats σ) →
  today_within_total (stats (final (resetDailyStats today σ))).
Proof.
  intros [Hu Hm]. rewrite resetDailyStats_run.
  case_bool_decide; unfold final; simpl; [|by split].
  split; simpl; [apply empty_subseteq|lia].
Qed.

Lemma event_keeps_today_within_total e σ :
  counts e →
  today_within_total (stats σ) → today_within_total (stats (after e σ)).
Proof.
  intros He H. pose proof H as [Hu Hm]. destruct e; simpl in *.
  - rewrite onStart_stats.
    destruct (reset_keeps_today_within_total today σ H) as [Hu' Hm'].
    split; simpl; [by apply union_mono_l|lia].
  - rewrite onCallbackQuery_stats.
    destruct (reset_keeps_today_within_total today σ H) as [Hu' Hm'].
    split; simpl; [exact Hu'|lia].
  - rewrite getStats_final. by apply reset_keeps_today_within_total.
  - rewrite detailedStats_final. by apply reset_keeps_today_within_total.
  - by rewrite createPage_stats.
  - by rewrite updatePage_stats.
  - by rewrite deletePage_stats.
  - by rewrite addButton_stats.
  - by rewrite deleteButton_stats.
  - by rewrite uploadFile_stats.
  - by rewrite deleteFile_stats.
  - rewrite exportData_final. by apply reset_keeps_today_within_total.
  - destruct He.
  - unfold clearAll. run. split; simpl; [apply empty_subseteq|lia].
  - by rewrite search_final.
Qed.

(** X4. Whatever sequence of bot events and admin requests other than
    imports the program handles, on whatever days and with whatever
    transport, the today figures never exceed the all-time figures: every
    user counted today is counted overall, and [todayMessages] is at most
    [messages], provided this holds at the start.  (An import stores the
    figures of its document, whatever they are.) *)
Theorem today_figures_stay_within_totals es σ :
  Forall counts es →
  today_within_total (stats σ) →
  today_within_total (stats (after_all es σ)).
Proof.
  intros Hes. revert σ. unfold after_all.
  induction Hes as [|e es He _ IH]; intros σ H; [exact H|].
  simpl. apply IH. by apply event_keeps_today_within_total.
Qed.

Lemma today_figures_stay_within_totals_witness :
  Forall counts
    [ev_press "Tue Jan 02 2024" Sample.accept_all (Sample.press "page_promo");
     ev_start "Tue Jan 02 2024" Sample.keys 42;
     ev_clear_all "Wed Jan 03 2024" 9000;
     ev_start "Wed Jan 03 2024" Sample.keys 8] ∧
  today_within_total (stats Sample.state) ∧
  today_within_total
    (stats (after_all
       [ev_press "Tue Jan 02 2024" Sample.accept_all (Sample.press "page_promo");
        ev_start "Tue Jan 02 2024" Sample.keys 42;
        ev_clear_all "Wed Jan 03 2024" 9000;
        ev_start "Wed Jan 03 2024" Sample.keys 8]
       Sample.state)).
Proof.
  assert (He : Forall counts
    [ev_press "Tue Jan 02 2024" Sample.accept_all (Sample.press "page_promo");
     ev_start "Tue Jan 02 2024" Sample.keys 42;
     ev_clear_all "Wed Jan 03 2024" 9000;
     ev_start "Wed Jan 03 2024" Sample.keys 8])
    by (repeat constructor).
  assert (H : today_within_total (stats Sample.state)).
  { split; simpl; [reflexivity|lia]. }
  split; [exact He|]. split; [exact H|].
  exact (today_figures_stay_within_totals _ Sample.state He H).
Defined.

(** ** More on navigation *)

(** X5. A press whose acknowledgement the transport refuses is still
    counted: both message counters have grown and a save has been asked for
    before the acknowledgement is awaited.  The handler then throws, and
    nothing is sent to the chat or edited, whatever the payload. *)
Theorem refused_press_is_counted_not_answered today accepts query σ :
  accepts (Call.answerCallbackQuery (query_id query)) = false →
  let run := onCallbackQuery today accepts query σ in
  result run = thrown Rejected ∧
  calls run = calls (resetDailyStats today σ) ++
              [Call.saveData; Call.answerCallbackQuery (query_id query)] ∧
  Stats.messages (stats (final run)) = S (Stats.messages (stats σ)) ∧
  Stats.todayMessages (stats (final run)) =
    S (Stats.todayMessages (stats (final (resetDailyStats today σ)))).
Proof.
  intros Hack. cbv zeta.
  destruct (refused_acknowledgement_stops_the_handler today accepts query σ Hack)
    as [Hr Hc].
  rewrite onCallbackQuery_stats, resetDailyStats_run.
  split; [exact Hr|]. split; [by rewrite Hc, resetDailyStats_run|].
  case_bool_decide; split; reflexivity.
Qed.

Lemma refused_press_is_counted_not_answered_witness :
  Fixture.refuse_all (Call.answerCallbackQuery "cbq-1") = false ∧
  calls (onCallbackQuery "Mon Jan 01 2024" Fixture.refuse_all
           (Sample.press "text_hello") Sample.state) =
    [Call.saveData; Call.answerCallbackQuery "cbq-1"] ∧
  Stats.messages (stats (final (onCallbackQuery "Mon Jan 01 2024"
    Fixture.refuse_all (Sample.press "text_hello") Sample.state))) = 13.
Proof.
  assert (H : Fixture.refuse_all (Call.answerCallbackQuery "cbq-1") = false)
    by reflexivity.
  split; [exact H|].
  destruct (refused_press_is_counted_not_answered "Mon Jan 01 2024"
              Fixture.refuse_all (Sample.press "text_hello") Sample.state H)
    as (_ & Hc & Hm & _).
  split; [exact Hc | exact Hm].
Defined.

(** A page shown without a message id is one new message. *)
Lemma showPage_new_message chatId pageKey σ :
  (∀ p, botData σ !! pageKey = Some p → Page.rows_only p) →
  ∃ text opts,
    showPage chatId pageKey None σ =
      (returned tt, σ, [Call.sendMessage chatId text opts]) ∧
    ∀ p, botData σ !! pageKey = Some p → text = page_text p.
Proof.
  intros Hrows. unfold showPage, Js.get. run.
  destruct (botData σ !! pageKey) as [p|] eqn:E; simpl.
  - specialize (Hrows p eq_refl). unfold Page.rows_only in Hrows.
    destruct (Page.buttons p) as [g|]; simpl.
    + destruct (inline_keyboard_rows g Hrows) as [k ->]. simpl.
      eexists _, _. split; [reflexivity|]. by intros ? [= <-].
    + eexists _, _. split; [reflexivity|]. by intros ? [= <-].
  - destruct (Js.is_prototype_name pageKey); simpl;
      (eexists _, _; split; [reflexivity|]; intros ? [=]).
Qed.

(** X6. [/start] is answered by exactly one new message to the chat, sent
    after the save and never as an edit, when the grids of the registry are
    made of rows: the welcome text when the registry has no key, and the
    main page whenever the registry has one, whichever key comes first. *)
Theorem start_sends_one_new_message today keys chatId σ :
  (∀ k p, botData σ !! k = Some p → Page.rows_only p) →
  ∃ text opts,
    result (onStart today keys chatId σ) = returned tt ∧
    calls (onStart today keys chatId σ) =
      calls (resetDailyStats today σ) ++
      [Call.saveData; Call.sendMessage chatId text opts] ∧
    (keys Page.t (botData σ) = [] → text = WELCOME_NO_PAGES ∧ opts = None) ∧
    (keys Page.t (botData σ) ≠ [] →
     ∀ p, botData σ !! "main_page" = Some p → text = page_text p).
Proof.
  intros Hrows.
  assert (Hshow : ∀ k s, botData s = botData σ →
            ∃ text opts,
              showPage chatId k None s =
                (returned tt, s, [Call.sendMessage chatId text opts]) ∧
              ∀ p, botData σ !! k = Some p → text = page_text p).
  { intros k s Hs. destruct (showPage_new_message chatId k s) as (t & o & H1 & H2).
    - rewrite Hs. apply Hrows.
    - exists t, o. split; [exact H1|]. rewrite <- Hs. exact H2. }
  unfold result, calls, onStart, mbind, M_bind. rewrite !resetDailyStats_run.
  destruct (keys Page.t (botData σ)) as [|k0 ks] eqn:Hkeys.
  - exists WELCOME_NO_PAGES, None.
    case_bool_decide; run; rewrite Hkeys; simpl;
      (split; [reflexivity|]; split; [reflexivity|]; split; [done|done]).
  - destruct (botData σ !! "main_page") as [p|] eqn:Hmain.
    + case_bool_decide; run; rewrite Hkeys; simpl;
        unfold Js.has, Js.get; rewrite Hmain; simpl.
      all: match goal with
           | |- context [showPage ?c "main_page" None ?s] =>
               destruct (Hshow "main_page" s eq_refl) as (t & o & -> & Ht)
           end.
      all: exists t, o; simpl; split; [reflexivity|]; split; [reflexivity|];
           split; [done|]; intros _ q [= <-]; by apply Ht.
    + case_bool_decide; run; rewrite Hkeys; simpl;
        unfold Js.has, Js.get; rewrite Hmain; simpl.
      all: destruct (Js.truthy k0); simpl.
      all: try match goal with
           | |- context [showPage ?c ?k None ?s] =>
               destruct (Hshow k s eq_refl) as (t & o & -> & Ht)
           end.
      all: eexists _, _; simpl; (split; [reflexivity|]); (split; [reflexivity|]);
           (split; [done|]); intros _ q [=].
Qed.

Lemma start_sends_one_new_message_witness :
  (∀ k p, botData Sample.state !! k = Some p → Page.rows_only p) ∧
  ∃ opts,
    calls (onStart "Mon Jan 01 2024" Sample.keys 42 Sample.state) =
      [Call.saveData; Call.sendMessage 42 (page_text Sample.main_page) opts].
Proof.
  assert (H : ∀ k p, botData Sample.state !! k = Some p → Page.rows_only p).
  { intros k p Hp. simpl in Hp.
    destruct (decide (k = "main_page")) as [->|?];
      [rewrite lookup_insert_eq in Hp|rewrite lookup_insert_ne in Hp by done].
    { injection Hp as <-. repeat constructor. }
    destruct (decide (k = "promo")) as [->|?];
      [rewrite lookup_insert_eq in Hp|rewrite lookup_insert_ne in Hp by done].
    { injection Hp as <-. constructor. }
    destruct (decide (k = "single")) as [->|?];
      [rewrite lookup_insert_eq in Hp|rewrite lookup_insert_ne in Hp by done].
    { injection Hp as <-. repeat constructor. }
    rewrite lookup_empty in Hp. discriminate Hp. }
  split; [exact H|].
  destruct (start_sends_one_new_message "Mon Jan 01 2024" Sample.keys 42
              Sample.state H) as (text & opts & _ & Hc & _ & Hmain).
  exists opts.
  assert (Hne : Sample.keys Page.t (botData Sample.state) ≠ [])
    by (vm_compute; discriminate).
  rewrite (Hmain Hne Sample.main_page eq_refl) in Hc. exact Hc.
Defined.

Lemma keyboard_button_text b : keyboard_text (keyboard_button b) = Button.text b.
Proof.
  unfold keyboard_button. destruct (Button.url b) as [u|]; [|reflexivity].
  destruct (Js.truthy u); reflexivity.
Qed.

(** X7. Rendering keeps the layout of a grid made of rows: the keyboard has
    one row per row of the grid, in the same order, each with one button per
    button, in the same order and with the same text.  A button with a
    non-empty [url] keeps it verbatim; any other button carries its callback
    data as a string. *)
Theorem keyboard_keeps_the_layout g :
  Grid.rows_only g →
  ∃ k, inline_keyboard g = returned k ∧
       length k = length g ∧
       (∀ i r, g !! i = Some (Grid.row r) →
          k !! i = Some (Some (keyboard_button <$> r)) ∧
          keyboard_text <$> (keyboard_button <$> r) = Button.text <$> r) ∧
       (∀ b u, Button.url b = Some u → Js.truthy u = true →
          keyboard_button b = Keyboard.url_button (Button.text b) u) ∧
       (∀ b, Js.truthy_opt (Button.url b) = false →
          keyboard_button b =
            Keyboard.callback_button (Button.text b)
              (Js.String_ (Button.callback_data b))).
Proof.
  intros Hrows.
  assert (Htext : ∀ r : list Button.t,
            keyboard_text <$> (keyboard_button <$> r) = Button.text <$> r).
  { intros r. rewrite <- list_fmap_compose. apply list_fmap_ext.
    intros ? b _. apply keyboard_button_text. }
  assert (∃ k, inline_keyboard g = returned k ∧ length k = length g ∧
            ∀ i r, g !! i = Some (Grid.row r) →
                   k !! i = Some (Some (keyboard_button <$> r))) as (k & Hk & Hl & Hi).
  { induction Hrows as [|s g Hs _ (k & Hk & Hl & Hi)]; simpl.
    - exists []. split; [reflexivity|]. split; [reflexivity|]. intros i r [=].
    - destruct s as [| |r0]; try discriminate Hs. rewrite Hk.
      eexists. split; [reflexivity|]. split; [simpl; by rewrite Hl|].
      intros [|i] r H; simpl in *; [by injection H as ->|by apply Hi]. }
  exists k. split; [exact Hk|]. split; [exact Hl|]. split; [|split].
  - intros i r H. split; [by apply Hi|apply Htext].
  - intros b u Hu Ht. unfold keyboard_button. by rewrite Hu, Ht.
  - intros b Hb. unfold keyboard_button, Js.truthy_opt in *.
    destruct (Button.url b) as [u|]; [by rewrite Hb|reflexivity].
Qed.

Lemma keyboard_keeps_the_layout_witness :
  Grid.rows_only [Grid.row [Sample.site; Sample.back]; Grid.row [Sample.go]] ∧
  ∃ k,
    inline_keyboard [Grid.row [Sample.site; Sample.back]; Grid.row [Sample.go]] =
      returned k ∧
    length k = 2 ∧
    k !! 0 = Some (Some [Keyboard.url_button "Site" "https://example.org";
                         Keyboard.callback_button "Back" "page_promo"]) ∧
    k !! 1 = Some (Some [Keyboard.callback_button "Go" "page_main_page"]).
Proof.
  assert (H : Grid.rows_only
                [Grid.row [Sample.site; Sample.back]; Grid.row [Sample.go]])
    by (repeat constructor).
  split; [exact H|].
  destruct (keyboard_keeps_the_layout _ H) as (k & Hk & Hlen & Hrow & _).
  exists k. split; [exact Hk|]. split; [exact Hlen|]. split.
  - exact (proj1 (Hrow 0 [Sample.site; Sample.back] eq_refl)).
  - exact (proj1 (Hrow 1 [Sample.go] eq_refl)).
Defined.

(** ** More on the page routes *)

Lemma has_false {A} (o : gmap string A) k :
  Js.has o k = false → o !! k = None ∧ Js.is_prototype_name k = false.
Proof.
  unfold Js.has, Js.get. destruct (o !! k); [discriminate|].
  destruct (Js.is_prototype_name k); [discriminate|done].
Qed.

Lemma has_plain {A} (o : gmap string A) k :
  Js.is_prototype_name k = false → o !! k = None → Js.get o k = Js.undefined.
Proof. intros Hk Ho. by rewrite get_plain, Ho. Qed.

(** X8. A page that [POST /api/pages] has accepted is served back: the key
    was free, the registry gains exactly this key, one save is asked for,
    the page read through [GET /api/pages/:pageId] is the one stored, with
    the title and message of the request and a button grid that is never
    absent, and a second create of the same key is refused with 400. *)
Theorem created_page_is_served pageId pageData σ :
  result (createPage (Some pageId) (Some pageData) σ) = returned success →
  let σ' := final (createPage (Some pageId) (Some pageData) σ) in
  let page := Page.mk (Page.title pageData) (Page.message pageData)
                      (Some (default [] (Page.buttons pageData))) in
  botData σ !! pageId = None ∧
  σ' = with_botData <[pageId := page]> σ ∧
  calls (createPage (Some pageId) (Some pageData) σ) = [Call.saveData] ∧
  getPage pageId σ' = (returned (sent (Js.own (Page.json page))), σ', []) ∧
  getButtons pageId σ' =
    (returned (sent (Grid.json (default [] (Page.buttons pageData)))), σ', []) ∧
  createPage (Some pageId) (Some pageData) σ' = (returned (failure 400), σ', []).
Proof.
  unfold createPage. run.
  destruct (negb (Js.truthy pageId) || negb (Js.truthy_opt (Page.title pageData))
            || negb (Js.truthy_opt (Page.message pageData))) eqn:Hvalid;
    simpl; [discriminate|].
  destruct (Js.has (botData σ) pageId) eqn:Hhas; simpl; [discriminate|].
  intros _. destruct (has_false _ _ Hhas) as [Hfree Hplain].
  unfold final, calls, with_botData. simpl.
  rewrite !(set_plain _ _ _ Hplain).
  split; [exact Hfree|]. split; [reflexivity|]. split; [reflexivity|].
  unfold getPage, getButtons. run. unfold Js.has, Js.get.
  rewrite !lookup_insert_eq. simpl. done.
Qed.

Lemma created_page_is_served_witness :
  result (createPage (Some "news") (Some Fixture.news) Sample.state) =
    returned success ∧
  getButtons "news"
    (final (createPage (Some "news") (Some Fixture.news) Sample.state)) =
    (returned (sent []),
     final (createPage (Some "news") (Some Fixture.news) Sample.state), []).
Proof.
  assert (H : result (createPage (Some "news") (Some Fixture.news) Sample.state) =
              returned success) by reflexivity.
  split; [exact H|].
  destruct (created_page_is_served "news" Fixture.news Sample.state H)
    as (_ & _ & _ & _ & Hb & _).
  exact Hb.
Defined.

(** X9. A page that [DELETE /api/pages/:pageId] has removed is gone from
    the registry: the registry loses exactly this own key, one save is asked
    for, and the listing of [GET /api/pages] no longer has the key and shows
    every other page as before.  For a key that names a built-in of
    [Object.prototype] the same delete succeeds again, changes nothing more
    and asks for another save. *)
Theorem deleted_page_is_gone pageId σ :
  result (deletePage pageId σ) = returned success →
  let σ' := final (deletePage pageId σ) in
  σ' = with_botData (delete pageId) σ ∧
  calls (deletePage pageId σ) = [Call.saveData] ∧
  (∃ listing,
     getPages σ' = (returned listing, σ', []) ∧
     listing !! pageId = None ∧
     ∀ k, k ≠ pageId → listing !! k = Page.json <$> botData σ !! k) ∧
  (Js.is_prototype_name pageId = true →
     deletePage pageId σ' = (returned success, σ', [Call.saveData])).
Proof.
  unfold deletePage at 1 2 3. run.
  destruct (Js.has (botData σ) pageId) eqn:Hhas; simpl; [|discriminate].
  intros _. split; [reflexivity|]. split; [reflexivity|]. split.
  - unfold getPages, final. run. eexists. split; [reflexivity|].
    split.
    + by rewrite lookup_fmap, lookup_delete_eq.
    + intros k Hk. by rewrite !lookup_fmap, lookup_delete_ne.
  - intros Hproto. unfold deletePage, Js.has, Js.get, final. run.
    rewrite lookup_delete_eq, Hproto. simpl.
    unfold with_botData. simpl. by rewrite delete_delete_eq.
Qed.

Lemma deleted_page_is_gone_witness :
  result (deletePage "promo" Sample.state) = returned success ∧
  ∃ listing,
    result (getPages (final (deletePage "promo" Sample.state))) =
      returned listing ∧
    listing !! "promo" = None ∧
    listing !! "single" = Some Sample.single.
Proof.
  assert (H : result (deletePage "promo" Sample.state) = returned success)
    by reflexivity.
  split; [exact H|].
  destruct (deleted_page_is_gone "promo" Sample.state H)
    as (_ & _ & (listing & Hl & Hgone & Hrest) & _).
  exists listing. split; [by rewrite Hl|]. split; [exact Hgone|].
  rewrite (Hrest "single") by discriminate. reflexivity.
Defined.

Lemma merge_idempotent p d : Page.merge (Page.merge p d) d = Page.merge p d.
Proof.
  destruct p as [t m b], d as [[?|] [?|] [?|]]; reflexivity.
Qed.

Lemma merge_empty p : Page.merge p Page.empty = p.
Proof. by destruct p. Qed.

Lemma set_own {A} (o : gmap string A) k v :
  is_Some (o !! k) → Js.set o k v = <[k := v]> o.
Proof.
  intros [a Ha]. unfold Js.set. rewrite Ha.
  rewrite bool_decide_eq_false_2 by discriminate.
  by rewrite andb_false_r.
Qed.

(** X10. [PUT /api/pages/:pageId] on a page of the registry answers success
    with one save, stores the merge of the old page and the body under the
    same key and touches nothing else; sending the same body again changes
    nothing more, and an empty body changes nothing at all. *)
Theorem update_merges_once pageId d p σ :
  botData σ !! pageId = Some p →
  let σ' := with_botData <[pageId := Page.merge p d]> σ in
  updatePage pageId d σ = (returned success, σ', [Call.saveData]) ∧
  final (updatePage pageId d σ') = σ' ∧
  (d = Page.empty → σ' = σ).
Proof.
  intros Hp. cbv zeta. unfold updatePage. run.
  rewrite (own_page _ _ _ Hp). simpl. unfold with_botData. simpl.
  rewrite set_own by (by rewrite Hp). split; [reflexivity|]. split.
  - unfold Js.get. rewrite lookup_insert_eq. simpl. unfold final. simpl.
    rewrite set_own by (rewrite lookup_insert_eq; eauto).
    by rewrite insert_insert_eq, merge_idempotent.
  - intros ->. rewrite merge_empty. destruct σ as [bd fd st]. simpl in *.
    unfold with_botData. simpl. by rewrite insert_id.
Qed.

Lemma update_merges_once_witness :
  botData Sample.state !! "promo" = Some Sample.promo ∧
  updatePage "promo" (Page.mk (Some "Sale") None None) Sample.state =
    (returned success,
     with_botData <["promo" := Page.mk (Some "Sale") (Some "Hi") (Some [])]>
       Sample.state,
     [Call.saveData]).
Proof.
  assert (H : botData Sample.state !! "promo" = Some Sample.promo) by reflexivity.
  split; [exact H|].
  destruct (update_merges_once "promo" (Page.mk (Some "Sale") None None)
              Sample.promo Sample.state H) as (Hrun & _).
  exact Hrun.
Defined.

(** ** More on the button routes *)

Lemma delete_at_end {A} (l : list A) (x : A) : delete (length l) (l ++ [x]) = l.
Proof. induction l as [|a l IH]; [reflexivity|]. simpl. by rewrite IH. Qed.

Lemma lookup_at_end {A} (l : list A) (x : A) : (l ++ [x]) !! length l = Some x.
Proof. induction l as [|a l IH]; [reflexivity|exact IH]. Qed.

(** The state after a successful [DELETE /api/pages/:pageId/buttons]. *)
Lemma deleteButton_on_button pageId r i p g rw x σ :
  botData σ !! pageId = Some p → Page.buttons p = Some g →
  g !! r = Some (Grid.row rw) → rw !! i = Some x →
  deleteButton pageId (Some r) (Some i) σ =
    (returned success,
     with_botData <[pageId := Page.set_buttons p
        (if bool_decide (length (delete i rw) = 0)
         then delete r g else <[r := Grid.row (delete i rw)]> g)]> σ,
     [Call.saveData]).
Proof.
  intros Hp Hg Hr Hi. unfold deleteButton. run.
  rewrite (own_page _ _ _ Hp). simpl. rewrite Hg, Hr, Hi. unfold Js.splice1.
  case_bool_decide; simpl; [|reflexivity].
  by rewrite delete_insert_same.
Qed.

(** Any other [DELETE /api/pages/:pageId/buttons] on a page of the registry
    answers 404. *)
Lemma deleteButton_elsewhere pageId rowIndex buttonIndex p σ :
  botData σ !! pageId = Some p →
  result (deleteButton pageId rowIndex buttonIndex σ) ≠ returned success →
  deleteButton pageId rowIndex buttonIndex σ = (returned (failure 404), σ, []).
Proof.
  intros Hp. unfold deleteButton, result. run.
  rewrite (own_page _ _ _ Hp). simpl.
  repeat case_match; simplify_eq; simpl; try done;
    let Hne := fresh "Hne" in intros Hne; by destruct Hne.
Qed.

(** A successful delete named a button of the grid. *)
Lemma deleteButton_success pageId rowIndex buttonIndex p g σ :
  botData σ !! pageId = Some p → Page.buttons p = Some g →
  result (deleteButton pageId rowIndex buttonIndex σ) = returned success →
  ∃ r i rw x, rowIndex = Some r ∧ buttonIndex = Some i ∧
              g !! r = Some (Grid.row rw) ∧ rw !! i = Some x.
Proof.
  intros Hp Hg. unfold deleteButton, result. run.
  rewrite (own_page _ _ _ Hp). simpl. rewrite Hg.
  repeat case_match; simplify_eq; simpl; try done; intros _; eauto 10.
Qed.

(** X11. On a page that has a [buttons] array, deleting the button that
    [POST /api/pages/:pageId/buttons] has just added gives back the state
    before the add, whether the button opened a new row at the end (no row
    index, or the index of the row after the last) or went to the end of a
    row that had a button already. *)
Theorem add_then_delete_button_restores pageId b rowIndex r i p g σ :
  botData σ !! pageId = Some p → Page.buttons p = Some g →
  Js.truthy (Button.text b) = true →
  ((rowIndex = None ∨ rowIndex = Some (length g)) ∧ r = length g ∧ i = 0) ∨
  (∃ rw, rowIndex = Some r ∧ g !! r = Some (Grid.row rw) ∧ rw ≠ [] ∧
         i = length rw) →
  let σ1 := final (addButton pageId (Some b) rowIndex σ) in
  result (addButton pageId (Some b) rowIndex σ) = returned success ∧
  deleteButton pageId (Some r) (Some i) σ1 = (returned success, σ, [Call.saveData]).
Proof.
  intros Hp Hg Ht Hwhere. cbv zeta.
  rewrite (addButton_on_page _ _ _ _ _ Hp Ht). split; [reflexivity|].
  unfold final. simpl. rewrite Hg.
  set (g1 := add_to_grid (Some g) b rowIndex).
  assert (Hrestore : ∀ g2, g2 = g →
            with_botData <[pageId := Page.set_buttons (Page.set_buttons p g1) g2]>
              (with_botData <[pageId := Page.set_buttons p g1]> σ) = σ).
  { intros g2 ->. destruct σ as [bd fd st], p as [t m bs]. simpl in *.
    subst bs. unfold with_botData, Page.set_buttons. simpl.
    by rewrite insert_insert_eq, insert_id. }
  destruct Hwhere as [(Hri & -> & ->)|(rw & -> & Hr & Hrw & ->)].
  - assert (Hg1 : g1 = g ++ [Grid.row [b]]) by (by apply add_to_grid_new_row).
    rewrite (deleteButton_on_button pageId (length g) 0
               (Page.set_buttons p g1) g1 [b] b).
    + simpl. rewrite Hrestore; [reflexivity|]. rewrite Hg1. apply delete_at_end.
    + simpl. apply lookup_insert_eq.
    + reflexivity.
    + rewrite Hg1. apply lookup_at_end.
    + reflexivity.
  - assert (Hg1 : g1 = <[r := Grid.row (rw ++ [b])]> g)
      by (by apply add_to_grid_in_row).
    assert (Hlt : r < length g) by (by apply lookup_lt_Some in Hr).
    rewrite (deleteButton_on_button pageId r (length rw)
               (Page.set_buttons p g1) g1 (rw ++ [b]) b).
    + rewrite delete_at_end.
      rewrite bool_decide_eq_false_2 by (by destruct rw).
      rewrite Hrestore; [reflexivity|].
      rewrite Hg1, list_insert_insert_eq. by apply list_insert_id.
    + simpl. apply lookup_insert_eq.
    + reflexivity.
    + rewrite Hg1. by apply list_lookup_insert_eq.
    + apply lookup_at_end.
Qed.

Lemma add_then_delete_button_restores_witness :
  botData Sample.state !! "main_page" = Some Sample.main_page ∧
  deleteButton "main_page" (Some 0) (Some 2)
    (final (addButton "main_page" (Some Sample.site) (Some 0) Sample.state)) =
    (returned success, Sample.state, [Call.saveData]).
Proof.
  assert (H : botData Sample.state !! "main_page" = Some Sample.main_page)
    by reflexivity.
  split; [exact H|].
  refine (proj2 (add_then_delete_button_restores "main_page" Sample.site
                   (Some 0) 0 2 Sample.main_page _ Sample.state H eq_refl eq_refl
                   (or_intror (ex_intro _ _ (conj eq_refl (conj eq_refl
                      (conj _ eq_refl))))))).
  discriminate.
Defined.

Lemma add_to_grid_tidy g b rowIndex :
  tidy g →
  rowIndex = None ∨ (∃ r, rowIndex = Some r ∧ r ≤ length g) →
  tidy (add_to_grid (Some g) b rowIndex).
Proof.
  intros Hg Hri.
  assert (Hnew : tidy (g ++ [Grid.row [b]])).
  { apply Forall_app. split; [exact Hg|].
    apply Forall_singleton. by exists [b]. }
  destruct Hri as [->|(r & -> & Hle)]; [by rewrite add_to_grid_new_row; eauto|].
  destruct (decide (r = length g)) as [->|Hne];
    [by rewrite add_to_grid_new_row; eauto|].
  destruct (lookup_lt_is_Some_2 g r) as [s Hs]; [lia|].
  destruct (proj1 (Forall_lookup _ _) Hg r s Hs) as (rw & -> & Hrw).
  rewrite (add_to_grid_in_row _ _ _ _ Hs).
  apply Forall_insert; [exact Hg|]. exists (rw ++ [b]). split; [reflexivity|].
  by destruct rw.
Qed.

(** X12. The button routes keep a grid tidy, that is made of rows none of
    which is empty: [POST .../buttons] with no row index or with one that is
    at most the number of rows, and [DELETE .../buttons] with any indices,
    leave the page under its key with a tidy grid and the title and message
    it had. *)
Theorem button_routes_keep_grids_tidy pageId p g σ :
  botData σ !! pageId = Some p → Page.buttons p = Some g → tidy g →
  (∀ b rowIndex,
     Js.truthy (Button.text b) = true →
     rowIndex = None ∨ (∃ r, rowIndex = Some r ∧ r ≤ length g) →
     ∃ g', botData (final (addButton pageId (Some b) rowIndex σ)) !! pageId =
             Some (Page.set_buttons p g') ∧ tidy g') ∧
  (∀ rowIndex buttonIndex,
     ∃ g', botData (final (deleteButton pageId rowIndex buttonIndex σ)) !! pageId =
             Some (Page.set_buttons p g') ∧ tidy g').
Proof.
  intros Hp Hg Htidy. split.
  - intros b rowIndex Ht Hri.
    rewrite (addButton_on_page _ _ _ _ _ Hp Ht). unfold final. simpl.
    rewrite lookup_insert_eq, Hg. eexists. split; [reflexivity|].
    by apply add_to_grid_tidy.
  - intros rowIndex buttonIndex.
    assert (result (deleteButton pageId rowIndex buttonIndex σ) =
              returned success ∨
            result (deleteButton pageId rowIndex buttonIndex σ) ≠
              returned success) as [Hok|Hno].
    { destruct (result (deleteButton pageId rowIndex buttonIndex σ))
        as [[|?]|?]; [by left|by right|by right]. }
    + destruct (deleteButton_success _ _ _ _ _ _ Hp Hg Hok)
        as (r & i & rw & x & -> & -> & Hr & Hi).
      rewrite (deleteButton_on_button _ _ _ _ _ _ _ _ Hp Hg Hr Hi).
      unfold final. simpl. rewrite lookup_insert_eq.
      eexists. split; [reflexivity|].
      case_bool_decide as Hlen.
      * by apply Forall_delete.
      * apply Forall_insert; [exact Htidy|]. eexists. split; [reflexivity|].
        intros Hnil. by rewrite Hnil in Hlen.
    + rewrite (deleteButton_elsewhere _ _ _ _ _ Hp Hno). unfold final. simpl.
      exists g. split; [|exact Htidy].
      rewrite Hp. destruct p as [t m bs]. simpl in Hg. by subst bs.
Qed.

Lemma button_routes_keep_grids_tidy_witness :
  botData Sample.state !! "main_page" = Some Sample.main_page ∧
  tidy [Grid.row [Sample.site; Sample.back]; Grid.row [Sample.go]] ∧
  ∃ g', botData (final (deleteButton "main_page" (Some 1) (Some 0) Sample.state))
          !! "main_page" = Some (Page.set_buttons Sample.main_page g') ∧ tidy g'.
Proof.
  assert (H : botData Sample.state !! "main_page" = Some Sample.main_page)
    by reflexivity.
  assert (Ht : tidy [Grid.row [Sample.site; Sample.back]; Grid.row [Sample.go]]).
  { repeat constructor; eexists; (split; [reflexivity|discriminate]). }
  split; [exact H|]. split; [exact Ht|].
  exact (proj2 (button_routes_keep_grids_tidy "main_page" Sample.main_page _
                  Sample.state H eq_refl Ht) (Some 1) (Some 0)).
Defined.









(** ** Files *)

Lemma substring_all s : String.substring 0 (String.length s) s = s.
Proof. induction s as [|a s IH]; [reflexivity|]. simpl. by rewrite IH. Qed.

Lemma payload_prefix p s : Js.startsWith (p +:+ s) p = true.
Proof.
  unfold Js.startsWith. induction p as [|a p IH]; [by destruct s|].
  change (match Ascii.ascii_dec a a with
          | left _ => String.prefix p (p +:+ s) | right _ => false end = true).
  destruct (Ascii.ascii_dec a a); [exact IH|done].
Qed.

Lemma payload_rest p s : Js.substring (String.length p) (p +:+ s) = s.
Proof.
  unfold Js.substring. induction p as [|a p IH].
  - simpl. rewrite Nat.sub_0_r. apply substring_all.
  - exact IH.
Qed.

(** What a press on a [file_] button sends. *)
Lemma press_file_run today accepts query fileId σ :
  callback_data query = Some ("file_" +:+ fileId) →
  accepts (Call.answerCallbackQuery (query_id query)) = true →
  calls (onCallbackQuery today accepts query σ) =
    calls (resetDailyStats today σ) ++
    [Call.saveData; Call.answerCallbackQuery (query_id query)] ++
    match Js.get (filesData σ) fileId with
    | Js.own file =>
        if Js.truthy (File.file_id file) then
          let delivery :=
            if Js.startsWith (File.type file) "image/"
            then Call.sendPhoto (chat_id query) (File.file_id file)
            else if Js.startsWith (File.type file) "video/"
            then Call.sendVideo (chat_id query) (File.file_id file)
            else if Js.startsWith (File.type file) "audio/"
            then Call.sendAudio (chat_id query) (File.file_id file)
            else Call.sendDocument (chat_id query) (File.file_id file) in
          delivery ::
            (if accepts delivery then []
             else [Call.sendMessage (chat_id query) FILE_SEND_ERROR None])
        else [Call.sendMessage (chat_id query) FILE_UNAVAILABLE None]
    | _ => [Call.sendMessage (chat_id query) FILE_UNAVAILABLE None]
    end.
Proof.
  intros Hd Hack.
  assert (Hpre : Js.startsWith (Js.String_ (callback_data query)) "file_" = true)
    by (rewrite Hd; apply payload_prefix).
  assert (Hrest : Js.substring 5 (Js.String_ (callback_data query)) = fileId)
    by (rewrite Hd; apply (payload_rest "file_")).
  unfold calls, onCallbackQuery, mbind, M_bind. rewrite !resetDailyStats_run.
  cbv zeta. clear Hd.
  generalize dependent (Js.String_ (callback_data query)). intros data Hpre Hrest.
  case_bool_decide; run; unfold await, try_catch; rewrite Hack; simpl;
    rewrite Hpre; simpl; rewrite Hrest;
    (destruct (Js.get (filesData σ) fileId) as [file| |]; simpl;
     try reflexivity);
    (destruct (Js.truthy (File.file_id file)); simpl; try reflexivity);
    repeat step; reflexivity.
Qed.

(** X14. A file that [POST /api/upload] has accepted was sent to the admin
    chat with the method chosen from its MIME type, and is stored under the
    timestamp with the name, type and size of the request, the upload date
    and the handle that the transport's answer carried, with one save; its
    preview gives these five fields back. *)
Theorem uploaded_file_is_served send timestamp isoDate file admin f σ :
  result (uploadFile send timestamp isoDate (Some file) admin σ) =
    returned (sent f) →
  timestamp ≠ "__proto__" →
  let run := uploadFile send timestamp isoDate (Some file) admin σ in
  let σ' := final run in
  f = File.mk timestamp (Upload.originalname file) (Upload.mimetype file)
              (Upload.size file) (File.file_id f) isoDate ∧
  Js.truthy (File.file_id f) = true ∧
  (∃ answer,
     send (upload_method (Upload.mimetype file)) (default "" admin) file =
       Some answer ∧
     sent_file_id answer = returned (Some (File.file_id f))) ∧
  σ' = mkState (botData σ) (<[timestamp := f]> (filesData σ)) (stats σ) ∧
  calls run = [Call.saveData] ∧
  previewFile timestamp σ' =
    (returned (sent (Preview.entry
       (Preview.mk (Upload.originalname file) (Upload.mimetype file)
          (Upload.size file) (File.file_id f) isoDate))), σ', []).
Proof.
  intros Hok Hname. cbv zeta.
  assert (Hset : ∀ (o : gmap string File.t) v,
            Js.set o timestamp v = <[timestamp := v]> o).
  { intros o v. unfold Js.set.
    destruct (String.eqb_spec timestamp "__proto__") as [->|_]; [done|reflexivity]. }
  revert Hok. unfold uploadFile, result, final, calls. run.
  destruct (negb (Js.truthy_opt admin) ||
            String.eqb (default "" admin) "YOUR_ADMIN_CHAT_ID");
    simpl; [discriminate|].
  destruct (send (upload_method (Upload.mimetype file)) (default "" admin) file)
    as [m|]; simpl; [|discriminate].
  destruct (sent_file_id m) as [[id|]|e] eqn:Hm; simpl; try discriminate.
  destruct (Js.truthy id) eqn:Hid; simpl; [|discriminate].
  intros [= <-]. simpl. rewrite Hset.
  split; [reflexivity|]. split; [exact Hid|].
  split; [by exists m|]. split; [reflexivity|]. split; [reflexivity|].
  unfold previewFile. run. unfold Js.get. simpl.
  by rewrite lookup_insert_eq.
Qed.

Lemma uploaded_file_is_served_witness :
  result (uploadFile Fixture.transport "1700000000001" "2024-01-02T00:00:00.000Z"
            (Some Fixture.clip) (Some "7") Sample.state) =
    returned (sent (File.mk "1700000000001" "clip.mp4" "video/mp4" 4096
                      "BAACAgQAAx0" "2024-01-02T00:00:00.000Z")) ∧
  "1700000000001" ≠ "__proto__" ∧
  previewFile "1700000000001"
    (final (uploadFile Fixture.transport "1700000000001"
              "2024-01-02T00:00:00.000Z" (Some Fixture.clip) (Some "7")
              Sample.state)) =
    (returned (sent (Preview.entry
       (Preview.mk "clip.mp4" "video/mp4" 4096 "BAACAgQAAx0"
          "2024-01-02T00:00:00.000Z"))),
     final (uploadFile Fixture.transport "1700000000001"
              "2024-01-02T00:00:00.000Z" (Some Fixture.clip) (Some "7")
              Sample.state), []).
Proof.
  assert (H : result (uploadFile Fixture.transport "1700000000001"
                        "2024-01-02T00:00:00.000Z" (Some Fixture.clip) (Some "7")
                        Sample.state) =
              returned (sent (File.mk "1700000000001" "clip.mp4" "video/mp4" 4096
                                "BAACAgQAAx0" "2024-01-02T00:00:00.000Z")))
    by reflexivity.
  assert (Hn : "1700000000001" ≠ "__proto__") by discriminate.
  split; [exact H|]. split; [exact Hn|].
  destruct (uploaded_file_is_served _ _ _ _ _ _ _ H Hn)
    as (_ & _ & _ & _ & _ & Hpreview).
  exact Hpreview.
Defined.

(** X15. Every refusal of [POST /api/upload] leaves the state as it was and
    asks for no save, and the handler never throws: the answer is 400
    exactly when no file came or the admin chat is unset or still the
    placeholder, and 500 for a transport failure, an answer without a
    usable handle or a photo answer with no sizes. *)
Theorem upload_refusals_change_nothing send timestamp isoDate file admin σ :
  let run := uploadFile send timestamp isoDate file admin σ in
  (∃ f, result run = returned (sent f) ∧ calls run = [Call.saveData] ∧
        botData (final run) = botData σ ∧ stats (final run) = stats σ) ∨
  (∃ status, run = (returned (refused status), σ, []) ∧
     (status = 400 ∨ status = 500) ∧
     (status = 400 ↔
        file = None ∨ Js.truthy_opt admin = false ∨
        admin = Some "YOUR_ADMIN_CHAT_ID")).
Proof.
  cbv zeta. unfold uploadFile, result, final, calls. run.
  destruct file as [file|]; simpl;
    [|right; exists 400; split; [reflexivity|]; split; [by left|];
      split; [by left|done]].
  destruct (Js.truthy_opt admin) eqn:Hadmin; simpl;
    [|right; exists 400; split; [reflexivity|]; split; [by left|];
      split; [by right; left|done]].
  destruct (String.eqb_spec (default "" admin) "YOUR_ADMIN_CHAT_ID") as [Hp|Hp];
    simpl.
  { right. exists 400. split; [reflexivity|]. split; [by left|].
    split; [|done]. intros _. right. right.
    destruct admin as [a|]; [|discriminate Hadmin]. simpl in Hp. by subst a. }
  assert (H500 : ∃ status,
            (returned (refused 500) : outcome (reply File.t), σ, @nil Call.t) =
              (returned (refused status), σ, []) ∧
            (status = 400 ∨ status = 500) ∧
            (status = 400 ↔ Some file = None ∨ true = false ∨
                            admin = Some "YOUR_ADMIN_CHAT_ID")).
  { exists 500. split; [reflexivity|]. split; [by right|].
    split; [discriminate|]. intros [?|[?| ->]]; try discriminate.
    by destruct Hp. }
  destruct (send (upload_method (Upload.mimetype file)) (default "" admin) file)
    as [m|]; simpl; [|right; apply H500].
  destruct (sent_file_id m) as [[id|]|e]; simpl; try (right; apply H500).
  destruct (Js.truthy id); simpl; [|right; apply H500].
  left. eexists. split; [reflexivity|]. split; [reflexivity|]. split; reflexivity.
Qed.

(** X16. A file that [DELETE /api/files/:fileId] has removed is gone from
    the registry: the file registry loses exactly this own key, one save is
    asked for, and the listing of [GET /api/files] no longer has the key and
    shows every other file as before.  For an id that names a built-in of
    [Object.prototype] the same delete succeeds again, changing nothing
    more, and the preview still answers, with the built-in's [name] at
    most. *)
Theorem deleted_file_is_gone fileId σ :
  result (deleteFile fileId σ) = returned success →
  let σ' := final (deleteFile fileId σ) in
  σ' = mkState (botData σ) (delete fileId (filesData σ)) (stats σ) ∧
  calls (deleteFile fileId σ) = [Call.saveData] ∧
  (∃ listing,
     getFiles σ' = (returned listing, σ', []) ∧
     listing !! fileId = None ∧
     ∀ k, k ≠ fileId → listing !! k = filesData σ !! k) ∧
  (Js.is_prototype_name fileId = true →
     deleteFile fileId σ' = (returned success, σ', [Call.saveData]) ∧
     previewFile fileId σ' =
       (returned (sent (Preview.built_in (builtin_name fileId))), σ', [])).
Proof.
  intros Hok. cbv zeta.
  assert (Hrun : deleteFile fileId σ =
            (returned success,
             mkState (botData σ) (delete fileId (filesData σ)) (stats σ),
             [Call.saveData])).
  { revert Hok. unfold deleteFile, result. run.
    destruct (Js.has (filesData σ) fileId); simpl; [reflexivity|discriminate]. }
  rewrite Hrun. unfold final, calls. simpl.
  split; [reflexivity|]. split; [reflexivity|]. split.
  - unfold getFiles. run. eexists. split; [reflexivity|]. split.
    + apply lookup_delete_eq.
    + intros k Hk. by apply lookup_delete_ne.
  - intros Hproto. unfold previewFile, deleteFile, Js.has. run.
    unfold Js.get. rewrite lookup_delete_eq, Hproto. simpl.
    by rewrite delete_delete_eq.
Qed.

Lemma deleted_file_is_gone_witness :
  result (deleteFile "1700000000000" Sample.state) = returned success ∧
  ∃ listing,
    result (getFiles (final (deleteFile "1700000000000" Sample.state))) =
      returned listing ∧
    listing !! "1700000000000" = None.
Proof.
  assert (H : result (deleteFile "1700000000000" Sample.state) = returned success)
    by reflexivity.
  split; [exact H|].
  destruct (deleted_file_is_gone "1700000000000" Sample.state H)
    as (_ & _ & (listing & Hl & Hgone & _) & _).
  exists listing. split; [by rewrite Hl|exact Hgone].
Defined.

(** ** Reports *)

Lemma map_keys_length {B} (f : string → outcome B) keys bs :
  map_keys f keys = returned bs → length bs = length keys.
Proof.
  revert bs. induction keys as [|k keys IH]; intros bs; simpl.
  - by intros [= <-].
  - destruct (f k); [|discriminate].
    destruct (map_keys f keys); [|discriminate].
    intros [= <-]. simpl. f_equal. by apply IH.
Qed.

(** X17. When [GET /api/detailed-stats] answers, [GET /api/stats] at the
    same moment answers with the same six figures, and its uptime is the
    minutes of the detailed uptime; the seconds, minutes, hours and days of
    the detailed uptime, each floored from the milliseconds, are also each
    the floor of the unit before; and the report has one line per listed
    page key and file key. *)
Theorem reports_agree today now keys σ d :
  result (detailedStats today now keys σ) = returned d →
  ∃ s, result (getStats today now keys σ) = returned s ∧
    Report.users s = Report.totalUsers d ∧
    Report.messages s = Report.totalMessages d ∧
    Report.pages s = Report.totalPages d ∧
    Report.files s = Report.totalFiles d ∧
    Report.todayUsers s = Report.today_users d ∧
    Report.todayMessages s = Report.today_messages d ∧
    Report.uptime s = Report.minutes (Report.uptime_of d) ∧
    (let u := Report.uptime_of d in
     Report.seconds u = floor_div (Report.milliseconds u) 1000 ∧
     Report.minutes u = floor_div (Report.seconds u) 60 ∧
     Report.hours u = floor_div (Report.minutes u) 60 ∧
     Report.days u = floor_div (Report.hours u) 24) ∧
    length (Report.page_lines d) = Report.totalPages d ∧
    length (Report.file_lines d) = Report.totalFiles d.
Proof.
  unfold detailedStats, getStats, result, mbind, M_bind.
  rewrite !resetDailyStats_run.
  case_bool_decide; run.
  all: destruct (map_keys (page_line _) _) as [pl|] eqn:Hpl; simpl;
    [|discriminate].
  all: destruct (map_keys (file_line _) _) as [fl|] eqn:Hfl; simpl;
    [|discriminate].
  all: intros [= <-]; simpl; eexists; split; [reflexivity|]; simpl.
  all: apply map_keys_length in Hpl; apply map_keys_length in Hfl.
  all: unfold floor_div; rewrite !Z.div_div by lia; done.
Qed.

Lemma reports_agree_witness :
  result (detailedStats "Mon Jan 01 2024" 7200000 Sample.keys Sample.state) =
    returned (Report.mk_detailed 1 12 3 1 (Report.mk_uptime 7200000 7200 120 2 0)
                1 5
                [Report.mk_page_line "single" (Some "One") 1;
                 Report.mk_page_line "main_page" (Some "Main") 3;
                 Report.mk_page_line "promo" (Some "Promo") 0]
                [Report.mk_file_line "1700000000000" (Some "cat.png")
                   (Some "image/png") (Some 2048)]) ∧
  ∃ s, result (getStats "Mon Jan 01 2024" 7200000 Sample.keys Sample.state) =
         returned s ∧ Report.uptime s = 120%Z.
Proof.
  assert (H : result (detailedStats "Mon Jan 01 2024" 7200000 Sample.keys
                        Sample.state) =
    returned (Report.mk_detailed 1 12 3 1 (Report.mk_uptime 7200000 7200 120 2 0)
                1 5
                [Report.mk_page_line "single" (Some "One") 1;
                 Report.mk_page_line "main_page" (Some "Main") 3;
                 Report.mk_page_line "promo" (Some "Promo") 0]
                [Report.mk_file_line "1700000000000" (Some "cat.png")
                   (Some "image/png") (Some 2048)])) by (vm_compute; reflexivity).
  split; [exact H|].
  destruct (reports_agree _ _ _ _ _ H) as (s & Hs & _ & _ & _ & _ & _ & _ & Hu & _).
  exists s. split; [exact Hs|exact Hu].
Defined.

(** ** Clearing and importing *)

(** X18. [POST /api/clear-all] leaves, whatever the state was, the state of
    a start with no document on disk, and asks for one save where the start
    asks for none; a statistics report right after it shows no users, no
    messages and no uptime, and rolls nothing. *)
Theorem clear_all_is_a_first_start today now σ :
  result (clearAll today now σ) = returned success ∧
  calls (clearAll today now σ) = [Call.saveData] ∧
  loadData today now (mkDisk ENOENT ENOENT ENOENT) σ =
    (returned tt, final (clearAll today now σ), []) ∧
  (∀ keys, ∃ s,
     getStats today now keys (final (clearAll today now σ)) =
       (returned s, final (clearAll today now σ), []) ∧
     Report.users s = 0 ∧ Report.messages s = 0 ∧
     Report.todayUsers s = 0 ∧ Report.todayMessages s = 0 ∧
     Report.uptime s = 0%Z).
Proof.
  split; [reflexivity|]. split; [reflexivity|]. split; [reflexivity|].
  intros keys. unfold getStats, mbind, M_bind. rewrite resetDailyStats_run.
  unfold clearAll, final. run.
  rewrite bool_decide_eq_false_2 by (intros H; by apply H).
  eexists. split; [reflexivity|]. simpl. rewrite Z.sub_diag.
  repeat split; reflexivity.
Qed.

(** X19. Importing the same file twice in a row leaves the state of the
    first import, for every file and state, also when the import stops at
    the statistics; a request without a file is refused with 400 and one
    whose file does not parse with 500, both with the state unchanged and
    no save. *)
Theorem import_twice_is_import_once today now file σ :
  final (importData today now file (final (importData today now file σ))) =
    final (importData today now file σ) ∧
  importData today now no_file σ = (returned (failure 400), σ, []) ∧
  importData today now unparsable σ = (returned (failure 500), σ, []).
Proof.
  split; [|split; reflexivity].
  destruct file as [| |doc]; [reflexivity|reflexivity|].
  unfold importData, try_catch, final. run. destruct σ as [b f s].
  destruct (Backup.botData doc), (Backup.filesData doc),
    (Backup.stats doc) as [d|]; simpl; try reflexivity.
  all: destruct (Backup.totalUsers d) as [[l|[|n]]|]; reflexivity.
Qed.

(** ** More on search *)









(** ** Page texts *)

Lemma keeps_texts_refl o : keeps_texts o o.
Proof. intros k p H. by exists p. Qed.

Lemma keeps_texts_trans o1 o2 o3 :
  keeps_texts o1 o2 → keeps_texts o2 o3 → keeps_texts o1 o3.
Proof.
  intros H12 H23 k p3 H3.
  destruct (H23 k p3 H3) as (p2 & H2 & Ht & Hm).
  destruct (H12 k p2 H2) as (p1 & H1 & Ht' & Hm').
  exists p1. split; [exact H1|]. split; congruence.
Qed.

Lemma keeps_texts_buttons o k p g :
  o !! k = Some p → keeps_texts o (<[k := Page.set_buttons p g]> o).
Proof.
  intros Hp k' p' H.
  destruct (decide (k' = k)) as [->|Hne].
  - rewrite lookup_insert_eq in H. injection H as <-. by exists p.
  - rewrite lookup_insert_ne in H by done. by exists p'.
Qed.

Lemma keeps_texts_delete o k : keeps_texts o (delete k o).
Proof.
  intros k' p' H. exists p'. split; [|done].
  destruct (decide (k' = k)) as [->|Hne].
  - by rewrite lookup_delete_eq in H.
  - by rewrite lookup_delete_ne in H.
Qed.

Lemma reset_registries today σ :
  botData (final (resetDailyStats today σ)) = botData σ.
Proof. rewrite resetDailyStats_run. by case_bool_decide. Qed.

Lemma uploadFile_registry send timestamp isoDate file admin σ :
  botData (final (uploadFile send timestamp isoDate file admin σ)) = botData σ.
Proof. unfold uploadFile. quiet. Qed.

Lemma deleteFile_registry fileId σ :
  botData (final (deleteFile fileId σ)) = botData σ.
Proof. unfold deleteFile. quiet. Qed.

Lemma event_keeps_texts e σ :
  carries_no_text e → keeps_texts (botData σ) (botData (after e σ)).
Proof.
  intros He. destruct e; simpl in *; try destruct He.
  - rewrite (proj1 (onStart_registries _ _ _ _)). apply keeps_texts_refl.
  - rewrite (proj1 (onCallbackQuery_registries _ _ _ _)). apply keeps_texts_refl.
  - rewrite getStats_final, reset_registries. apply keeps_texts_refl.
  - rewrite detailedStats_final, reset_registries. apply keeps_texts_refl.
  - unfold deletePage. run.
    destruct (Js.has (botData σ) pageId); simpl;
      [apply keeps_texts_delete|apply keeps_texts_refl].
  - unfold addButton, Js.get. run.
    destruct (botData σ !! pageId) as [p|] eqn:Hp; simpl.
    + destruct buttonData as [b|]; [|apply keeps_texts_refl].
      destruct (Js.truthy (Button.text b)); simpl;
        [by apply keeps_texts_buttons|apply keeps_texts_refl].
    + destruct (Js.is_prototype_name pageId); simpl; [|apply keeps_texts_refl].
      destruct buttonData as [b|]; [|apply keeps_texts_refl].
      destruct (Js.truthy (Button.text b)); apply keeps_texts_refl.
  - unfold deleteButton, Js.get. run.
    destruct (botData σ !! pageId) as [p|] eqn:Hp; simpl.
    + repeat case_match; simplify_eq; simpl;
        first [apply keeps_texts_refl|by apply keeps_texts_buttons].
    + destruct (Js.is_prototype_name pageId); simpl; apply keeps_texts_refl.
  - rewrite uploadFile_registry. apply keeps_texts_refl.
  - rewrite deleteFile_registry. apply keeps_texts_refl.
  - rewrite exportData_final, reset_registries. apply keeps_texts_refl.
  - intros k p H. simpl in H. by rewrite lookup_empty in H.
  - rewrite search_final. apply keeps_texts_refl.
Qed.

(** X22. No event but a create, an update or an import changes the text of
    a page: along any sequence of the other events (bot events, reports,
    page and file deletes, button adds and deletes, uploads, exports,
    clear-all, searches), every page that the registry holds at the end was
    there at the start under the same key, with the same title and the same
    message. *)
Theorem pages_keep_their_texts es σ :
  Forall carries_no_text es →
  keeps_texts (botData σ) (botData (after_all es σ)).
Proof.
  intros Hes. revert σ. unfold after_all.
  induction Hes as [|e es He _ IH]; intros σ; [apply keeps_texts_refl|].
  simpl. eapply keeps_texts_trans; [|apply IH].
  by apply event_keeps_texts.
Qed.

Lemma pages_keep_their_texts_witness :
  Forall carries_no_text
    [ev_add_button "promo" (Some Sample.go) None;
     ev_delete "single";
     ev_delete_button "main_page" (Some 0) (Some 0)] ∧
  keeps_texts (botData Sample.state)
    (botData (after_all
       [ev_add_button "promo" (Some Sample.go) None;
        ev_delete "single";
        ev_delete_button "main_page" (Some 0) (Some 0)] Sample.state)).
Proof.
  assert (H : Forall carries_no_text
    [ev_add_button "promo" (Some Sample.go) None;
     ev_delete "single";
     ev_delete_button "main_page" (Some 0) (Some 0)])
    by (repeat constructor).
  split; [exact H|].
  exact (pages_keep_their_texts _ Sample.state H).
Defined.

(** ** Routes that read *)

(** X23. The three report routes ([GET /api/stats], [/api/detailed-stats],
    [/api/export]) are reads that roll the day: each leaves the state and
    the save requests of [resetDailyStats] and nothing more, so on the day
    already recorded they change nothing and ask for no save, and on another
    day they zero the today figures, record the day and ask for one save. *)
Theorem report_routes_roll_the_day today now keys σ :
  let rolled := resetDailyStats today σ in
  (final (getStats today now keys σ) = final rolled ∧
   calls (getStats today now keys σ) = calls rolled) ∧
  (final (detailedStats today now keys σ) = final rolled ∧
   calls (detailedStats today now keys σ) = calls rolled) ∧
  (final (exportData today now σ) = final rolled ∧
   calls (exportData today now σ) = calls rolled) ∧
  (Stats.dailyReset (stats σ) = today → final rolled = σ ∧ calls rolled = []) ∧
  (Stats.dailyReset (stats σ) ≠ today →
     Stats.todayUsers (stats (final rolled)) = ∅ ∧
     Stats.todayMessages (stats (final rolled)) = 0 ∧
     Stats.dailyReset (stats (final rolled)) = today ∧
     calls rolled = [Call.saveData]).
Proof.
  cbv zeta. split; [|split; [|split; [|split]]].
  - split; [apply getStats_final|].
    unfold getStats, mbind, M_bind. rewrite !resetDailyStats_run.
    case_bool_decide; unfold calls; simpl; by rewrite ?app_nil_r.
  - split; [apply detailedStats_final|].
    unfold detailedStats, mbind, M_bind. rewrite !resetDailyStats_run.
    case_bool_decide; run;
      (destruct (map_keys (page_line _) _); simpl; [|reflexivity]);
      destruct (map_keys (file_line _) _); reflexivity.
  - split; [apply exportData_final|].
    rewrite exportData_run, resetDailyStats_run. case_bool_decide; reflexivity.
  - intros Hd. rewrite resetDailyStats_run.
    by rewrite bool_decide_eq_false_2 by (intros H; by apply H).
  - intros Hd. rewrite resetDailyStats_run.
    by rewrite bool_decide_eq_true_2 by exact Hd.
Qed.

Lemma report_routes_roll_the_day_witness :
  Stats.dailyReset (stats Sample.empty_state) = "Mon Jan 01 2024" ∧
  final (getStats "Mon Jan 01 2024" 5 Sample.keys Sample.empty_state) =
    Sample.empty_state.
Proof.
  assert (H : Stats.dailyReset (stats Sample.empty_state) = "Mon Jan 01 2024")
    by reflexivity.
  split; [exact H|].
  destruct (report_routes_roll_the_day "Mon Jan 01 2024" 5 Sample.keys
              Sample.empty_state) as ([Hf _] & _ & _ & Hsame & _).
  rewrite Hf. exact (proj1 (Hsame H)).
Defined.

(** X24. The routes that list or look up pages, buttons and files, and
    search, never write: whatever they answer, and also when search throws,
    the state is the one before and no save or message is asked for. *)
Theorem read_routes_never_write keys lowercase pageId fileId q σ :
  (final (getPages σ) = σ ∧ calls (getPages σ) = []) ∧
  (final (getPage pageId σ) = σ ∧ calls (getPage pageId σ) = []) ∧
  (final (getButtons pageId σ) = σ ∧ calls (getButtons pageId σ) = []) ∧
  (final (getFiles σ) = σ ∧ calls (getFiles σ) = []) ∧
  (final (previewFile fileId σ) = σ ∧ calls (previewFile fileId σ) = []) ∧
  (final (search keys lowercase q σ) = σ ∧
   calls (search keys lowercase q σ) = []).
Proof.
  split; [by split|]. split; [|split; [|split; [by split|split]]].
  - unfold getPage. run. by destruct (Js.get (botData σ) pageId).
  - unfold getButtons. run. by destruct (Page.of_property _).
  - unfold previewFile. run. by destruct (Js.get (filesData σ) fileId).
  - split; [apply search_final|]. unfold search. quiet.
Qed.

(** ** The older program *)

(** X25. [POST /api/buttons/file] of the older program, on a page of the
    registry: for a known file it appends one new row holding one button
    with the given text and the file id as callback data, wherever the grid
    ended, and touches nothing else, which is the state that the button
    route of the later program reaches for the same button with no row
    index; for an unknown file it answers 404 and changes nothing.  It
    never asks for a save. *)
Theorem legacy_file_button_opens_a_row pageId buttonText fileId p σ :
  botData σ !! pageId = Some p →
  let run := Legacy.addFileButton pageId buttonText fileId σ in
  let button := Button.mk buttonText None (Some fileId) in
  calls run = [] ∧
  (Js.has (filesData σ) fileId = true →
     result run = returned success ∧
     final run =
       with_botData <[pageId := Page.set_buttons p
          (default [] (Page.buttons p) ++ [Grid.row [button]])]> σ ∧
     (Js.truthy buttonText = true →
        final run = final (addButton pageId (Some button) None σ))) ∧
  (Js.has (filesData σ) fileId = false →
     result run = returned (failure 404) ∧ final run = σ).
Proof.
  intros Hp. cbv zeta. unfold Legacy.addFileButton. run.
  rewrite (own_page _ _ _ Hp). simpl.
  destruct (Js.has (filesData σ) fileId); simpl.
  - split; [reflexivity|]. split; [|discriminate].
    intros _. split; [reflexivity|]. split; [reflexivity|].
    intros Ht.
    rewrite (addButton_on_page pageId (Button.mk buttonText None (Some fileId))
               None p σ Hp Ht).
    unfold final. simpl.
    do 3 f_equal. destruct (Page.buttons p) as [g|]; simpl.
    + symmetry. apply add_to_grid_new_row. by left.
    + reflexivity.
  - split; [reflexivity|]. split; [discriminate|done].
Qed.

Lemma legacy_file_button_opens_a_row_witness :
  botData Sample.state !! "single" = Some Sample.single ∧
  Js.has (filesData Sample.state) "1700000000000" = true ∧
  final (Legacy.addFileButton "single" "Cat" "1700000000000" Sample.state) =
    with_botData <["single" := Page.set_buttons Sample.single
       [Grid.row [Sample.go];
        Grid.row [Button.mk "Cat" None (Some "1700000000000")]]]> Sample.state.
Proof.
  assert (H : botData Sample.state !! "single" = Some Sample.single)
    by reflexivity.
  assert (Hf : Js.has (filesData Sample.state) "1700000000000" = true)
    by reflexivity.
  split; [exact H|]. split; [exact Hf|].
  destruct (legacy_file_button_opens_a_row "single" "Cat" "1700000000000"
              Sample.single Sample.state H) as (_ & Hknown & _).
  exact (proj1 (proj2 (Hknown Hf))).
Defined.
